(** * victory-bar: the layout computations of [VictoryBar]

    A shallow embedding of [src/components/victory-bar.jsx]: the style
    resolver, the domain calculator, the position calculator and the label
    placement of the bar chart component, together with the properties the
    specification states about them.

    Conventions.
    - A JavaScript number is a [num]: an exact rational, one of the two
      infinities, or [NaN].  Arithmetic on finite values is exact (no
      rounding) and zero carries no sign; every other IEEE rule the
      component can observe (division by zero, [Infinity - Infinity],
      comparisons with [NaN], [Math.min()] of nothing) is written out.
    - The component's instance ([this]) is a record that the methods read,
      and that [getCalculatedValues] overwrites field by field.
    - A thrown [TypeError] is [None] in the [option] monad.
    - lodash, d3-scale and victory-util are libraries of their own.  The
      lodash functions used are written out after lodash's documentation,
      and so is [Collection.containsStrings]; what else victory-util and
      d3-scale provide is an interface ([Collaborators]), whose members are
      functions of their arguments. *)

From Stdlib Require Import QArith Qcanon Qround Lqa.
From stdpp Require Import base option list gmap strings numbers sorting.

Local Open Scope Z_scope.

(** ** JavaScript numbers *)

Inductive num : Type :=
  | Fin (q : Qc)
  | PInf
  | NInf
  | NaN.

#[global] Instance num_eq_dec : EqDecision num.
Proof. solve_decision. Defined.

Definition ofZ (z : Z) : num := Fin (Qc_of_Z z).
Definition ofNat (n : nat) : num := ofZ (Z.of_nat n).
Definition ofQ (q : Q) : num := Fin (Q2Qc q).

(** Sign of a finite value: [Lt] negative, [Eq] zero, [Gt] positive. *)
Definition Qcsgn (q : Qc) : comparison := Qccompare q 0%Qc.

Definition nneg (a : num) : num :=
  match a with
  | Fin q => Fin (- q)%Qc
  | PInf => NInf
  | NInf => PInf
  | NaN => NaN
  end.

(** [a + b] *)
Definition nadd (a b : num) : num :=
  match a, b with
  | NaN, _ | _, NaN => NaN
  | Fin p, Fin q => Fin (p + q)%Qc
  | PInf, NInf | NInf, PInf => NaN
  | PInf, _ | _, PInf => PInf
  | NInf, _ | _, NInf => NInf
  end.

(** [a - b] *)
Definition nsub (a b : num) : num := nadd a (nneg b).

(** An infinity with the sign of [s], [NaN] for a zero factor. *)
Definition inf_signed (s : comparison) : num :=
  match s with
  | Gt => PInf
  | Lt => NInf
  | Eq => NaN
  end.

(** [a * b] *)
Definition nmul (a b : num) : num :=
  match a, b with
  | NaN, _ | _, NaN => NaN
  | Fin p, Fin q => Fin (p * q)%Qc
  | Fin p, PInf | PInf, Fin p => inf_signed (Qcsgn p)
  | Fin p, NInf | NInf, Fin p => inf_signed (CompOpp (Qcsgn p))
  | PInf, PInf | NInf, NInf => PInf
  | PInf, NInf | NInf, PInf => NInf
  end.

(** [a / b]; a zero divisor is the positive zero. *)
Definition ndiv (a b : num) : num :=
  match a, b with
  | NaN, _ | _, NaN => NaN
  | Fin p, Fin q =>
      match Qcsgn q with
      | Eq => inf_signed (Qcsgn p)
      | _ => Fin (p / q)%Qc
      end
  | Fin _, (PInf | NInf) => Fin 0%Qc
  | PInf, Fin q => match Qcsgn q with Lt => NInf | _ => PInf end
  | NInf, Fin q => match Qcsgn q with Lt => PInf | _ => NInf end
  | (PInf | NInf), (PInf | NInf) => NaN
  end.

(** [a < b]: false as soon as one side is [NaN]. *)
Definition nlt (a b : num) : bool :=
  match a, b with
  | NaN, _ | _, NaN => false
  | Fin p, Fin q => match Qccompare p q with Lt => true | _ => false end
  | NInf, (Fin _ | PInf) => true
  | Fin _, PInf => true
  | _, _ => false
  end.

(** [a >= b]: false as soon as one side is [NaN]. *)
Definition nge (a b : num) : bool :=
  match a, b with
  | NaN, _ | _, NaN => false
  | _, _ => negb (nlt a b)
  end.

(** [a === b] on numbers: [NaN] equals nothing. *)
Definition strict_eq (a b : num) : bool :=
  match a, b with
  | NaN, _ | _, NaN => false
  | _, _ => bool_decide (a = b)
  end.

(** The binary step of [Math.min] and [Math.max]. *)
Definition nmin (a b : num) : num :=
  match a, b with
  | NaN, _ | _, NaN => NaN
  | _, _ => if nlt b a then b else a
  end.

Definition nmax (a b : num) : num :=
  match a, b with
  | NaN, _ | _, NaN => NaN
  | _, _ => if nlt a b then b else a
  end.

(** [Math.min(...l)] and [Math.max(...l)]: the infinities for no argument. *)
Definition Math_min (l : list num) : num := foldr nmin PInf l.
Definition Math_max (l : list num) : num := foldr nmax NInf l.

(** [Math.floor(a)] *)
Definition Math_floor (a : num) : num :=
  match a with
  | Fin q => ofZ (Qfloor q)
  | _ => a
  end.

(** Truthiness of a number: [0] and [NaN] are falsy. *)
Definition num_truthy (a : num) : bool :=
  match a with
  | Fin q => negb (bool_decide (q = 0%Qc))
  | NaN => false
  | _ => true
  end.

(** [arr[i]] for a number [i]: an element only at an integer index within
    the array, [undefined] ([None]) elsewhere. *)
Definition js_index {A : Type} (arr : list A) (i : num) : option A :=
  match i with
  | Fin q =>
      if bool_decide (Qc_of_Z (Qfloor q) = q) && (0 <=? Qfloor q)
      then arr !! Z.to_nat (Qfloor q)
      else None
  | _ => None
  end.

(** ** JavaScript values *)

(** The values that style objects and label arrays hold.  [JObject] is an
    opaque reference (a plain object, a React element): always truthy, and
    [NaN] as a number. *)
Inductive jsval : Type :=
  | JUndefined
  | JNull
  | JBool (b : bool)
  | JNum (n : num)
  | JStr (s : string)
  | JObject (ref : nat).

#[global] Instance jsval_eq_dec : EqDecision jsval.
Proof. solve_decision. Defined.

Definition truthy (v : jsval) : bool :=
  match v with
  | JUndefined | JNull => false
  | JBool b => b
  | JNum n => num_truthy n
  | JStr s => negb (bool_decide (s = EmptyString))
  | JObject _ => true
  end.

(** [a || b] *)
Definition js_or (a b : jsval) : jsval := if truthy a then a else b.

(** [arr[i]] as a value: [undefined] where the array has no element. *)
Definition js_get (arr : list jsval) (i : num) : jsval :=
  default JUndefined (js_index arr i).

(** A plain object used as a map from keys to values. *)
Abbreviation jsobj := (gmap string jsval).

(** [obj.key] *)
Definition js_prop (obj : jsobj) (key : string) : jsval :=
  default JUndefined (obj !! key).

(** ** lodash *)

(** [_.merge(object, source)] on objects of scalar values: every own
    property of [source] that is not [undefined] is assigned to [object]
    (an opaque object in [source] replaces the entry); no [source], no
    change. *)
Definition merge_entry (dst src : option jsval) : option jsval :=
  match src with
  | None | Some JUndefined => dst
  | Some v => Some v
  end.

Definition lodash_merge (object : jsobj) (source : option jsobj) : jsobj :=
  match source with
  | None => object
  | Some src => merge merge_entry object src
  end.

(** [_.flatten(array)] of an array of arrays: one level. *)
Definition lodash_flatten {A : Type} (l : list (list A)) : list A := concat l.

(** [_.uniq(array)]: the first occurrence of every value, in order. *)
Fixpoint lodash_uniq (l : list num) : list num :=
  match l with
  | [] => []
  | v :: l' => v :: filter (fun w => w <> v) (lodash_uniq l')
  end.

(** The order of [_.sortBy] on numbers: ascending, [NaN] last. *)
Definition sort_leb (a b : num) : bool :=
  match a, b with
  | _, NaN => true
  | NaN, _ => false
  | _, _ => negb (nlt b a)
  end.

Definition sort_le (a b : num) : Prop := sort_leb a b = true.

#[global] Instance sort_le_dec : RelDecision sort_le.
Proof. intros a b. unfold sort_le. apply _. Defined.

Definition lodash_sortBy (l : list num) : list num := merge_sort sort_le l.

(** [_.findIndex(array, predicate)]: the first index, or [-1]. *)
Fixpoint find_from {A : Type} (p : A -> bool) (l : list A) (i : nat) : option nat :=
  match l with
  | [] => None
  | a :: l' => if p a then Some i else find_from p l' (S i)
  end.

Definition lodash_findIndex {A : Type} (l : list A) (p : A -> bool) : num :=
  match find_from p l 0 with
  | Some i => ofNat i
  | None => ofZ (-1)
  end.

(** ** Data model *)

Inductive axis : Type := AxisX | AxisY.

#[global] Instance axis_eq_dec : EqDecision axis.
Proof. solve_decision. Defined.

(** An object with one entry per axis: [{x: ..., y: ...}]. *)
Record PerAxis (A : Type) : Type := { on_x : A; on_y : A }.
Arguments on_x {A} _.
Arguments on_y {A} _.

(** [obj[axis]] *)
Definition at_axis {A : Type} (obj : PerAxis A) (a : axis) : A :=
  match a with
  | AxisX => on_x obj
  | AxisY => on_y obj
  end.

(** An entry of the [categories] prop: a string label, a number, or a
    range band (an array of numbers). *)
Inductive category : Type :=
  | CStr (s : string)
  | CNum (n : num)
  | CBand (band : list num).

(** A consolidated data point.  [x] and [y] are numbers (string values
    have been replaced by their position in the string map); [category]
    is the index of the point's range band when it has one; the remaining
    keys are style overrides. *)
Record DataPoint : Type := {
  datum_x : num;
  datum_y : num;
  datum_category : option num;
  datum_rest : jsobj
}.

#[global] Instance DataPoint_eq_dec : EqDecision DataPoint.
Proof. solve_decision. Defined.

Record Dataset : Type := {
  ds_name : option string;
  ds_attrs : jsobj;
  ds_data : list DataPoint
}.

(** The [domain] prop: one array for both axes, or an object with an
    array per axis. *)
Inductive DomainProp : Type :=
  | DomainArray (d : list num)
  | DomainPerAxis (d : PerAxis (option (list num))).

(** The [style] prop. *)
Record StyleProp : Type := {
  sp_parent : option jsobj;
  sp_data : option jsobj;
  sp_labels : option jsobj
}.

(** What [getStyles] returns. *)
Record Styles : Type := {
  style_parent : jsobj;
  style_data : jsobj;
  style_labels : jsobj
}.

Record Padding : Type := {
  pad_top : num;
  pad_bottom : num;
  pad_left : num;
  pad_right : num
}.

(** The props the component reads itself; [p_raw] holds the ones that only
    victory-util reads ([data], [dataAttributes], [colorScale],
    [domainPadding], [padding], [scale]). *)
Record Props (Raw : Type) : Type := {
  p_animate : option jsobj;
  p_categories : option (list category);
  p_domain : option DomainProp;
  p_height : num;
  p_horizontal : bool;
  p_labels : option (list jsval);
  p_labelComponents : option (list jsval);
  p_stacked : bool;
  p_standalone : bool;
  p_style : option StyleProp;
  p_width : num;
  p_raw : Raw
}.
Arguments p_animate {Raw} _.
Arguments p_categories {Raw} _.
Arguments p_domain {Raw} _.
Arguments p_height {Raw} _.
Arguments p_horizontal {Raw} _.
Arguments p_labels {Raw} _.
Arguments p_labelComponents {Raw} _.
Arguments p_stacked {Raw} _.
Arguments p_standalone {Raw} _.
Arguments p_style {Raw} _.
Arguments p_width {Raw} _.
Arguments p_raw {Raw} _.

(** The instance: [this.props] and the values [getCalculatedValues]
    caches on it. *)
Record VictoryBar (Raw Scale : Type) : Type := {
  props : Props Raw;
  style : Styles;
  padding : Padding;
  stringMap : PerAxis (option (gmap string nat));
  datasets : list Dataset;
  range : PerAxis (list num);
  domain : PerAxis (list num);
  scale : PerAxis Scale
}.
Arguments props {Raw Scale} _.
Arguments style {Raw Scale} _.
Arguments padding {Raw Scale} _.
Arguments stringMap {Raw Scale} _.
Arguments datasets {Raw Scale} _.
Arguments range {Raw Scale} _.
Arguments domain {Raw Scale} _.
Arguments scale {Raw Scale} _.

(** What victory-util, d3-scale and the JavaScript runtime provide. *)
Class Collaborators (Raw Scale : Type) : Type := {
  (** [Number(s)] for a string [s] *)
  stringToNumber : string -> num;
  (** [Chart.getPadding(props)] *)
  Chart_getPadding : Props Raw -> Padding;
  (** [Chart.getRange(props, axis)] *)
  Chart_getRange : Props Raw -> axis -> list num;
  (** [Chart.getDomainFromGroupedData(props, axis)] *)
  Chart_getDomainFromGroupedData : Props Raw -> axis -> list num;
  (** [Chart.padDomain(domain, axis)] *)
  Chart_padDomain : list num -> axis -> list num;
  (** [Data.createStringMap(props, axis)] *)
  Data_createStringMap : Props Raw -> axis -> option (gmap string nat);
  (** [Data.consolidateData(props)] *)
  Data_consolidateData : Props Raw -> list Dataset;
  (** [Scale.getBaseScale(props, axis)]: a scale object of its own *)
  Scale_getBaseScale : Props Raw -> axis -> Scale;
  (** [scale.range(r)] and [scale.domain(d)]: the scale after the call *)
  scale_set_range : Scale -> list num -> Scale;
  scale_set_domain : Scale -> list num -> Scale;
  (** [scale(v)] *)
  scale_call : Scale -> num -> num
}.

(** [Collection.containsStrings(collection)] of victory-util: whether some
    element of the collection is a string. *)
Definition Collection_containsStrings (collection : list category) : bool :=
  existsb (fun c => match c with CStr _ => true | _ => false end) collection.

(** ** The component *)

Definition defaultStyles : StyleProp := {|
  sp_parent := None;
  sp_data := Some (list_to_map [
    ("width", JNum (ofZ 8));
    ("padding", JNum (ofZ 6));
    ("stroke", JStr "transparent");
    ("strokeWidth", JNum (ofZ 0));
    ("fill", JStr "#756f6a");
    ("opacity", JNum (ofZ 1))
  ]);
  sp_labels := Some (list_to_map [
    ("fontSize", JNum (ofZ 12));
    ("padding", JNum (ofZ 4))
  ])
|}.

(** The second argument of [adjustX]. *)
Record Options : Type := { stacked : bool }.

(** What [getBarPosition] returns. *)
Record Position : Type := {
  independent : num;
  dependent0 : num;
  dependent1 : num
}.

#[global] Instance Position_eq_dec : EqDecision Position.
Proof. solve_decision. Defined.

(** The [BarLabel] element next to a bar. *)
Record BarLabel : Type := {
  labelText : jsval;
  labelComponent : jsval
}.

#[global] Instance BarLabel_eq_dec : EqDecision BarLabel.
Proof. solve_decision. Defined.

(** What [renderBars] emits for one data point: the [Bar] element (its
    position and its data point) and, for a labelled bar, the [BarLabel]
    element, which shares the position.  The style handed to the bar
    renderer has no part in the geometry and is left out. *)
Record RenderedBar : Type := {
  bar_series : nat;
  bar_index : nat;
  bar_position : Position;
  bar_data : DataPoint;
  bar_label : option BarLabel
}.

#[global] Instance RenderedBar_eq_dec : EqDecision RenderedBar.
Proof. solve_decision. Defined.

(** What [render] returns. *)
Inductive Element (Raw : Type) : Type :=
  | VictoryAnimation (animate : jsobj) (animateProps : Props Raw)
  | Svg (parentStyle : jsobj) (group : list (list RenderedBar))
  | Group (parentStyle : jsobj) (group : list (list RenderedBar)).
Arguments VictoryAnimation {Raw} _ _.
Arguments Svg {Raw} _ _.
Arguments Group {Raw} _ _.

Section Component.
Context {Raw Scale : Type} `{!Collaborators Raw Scale}.

Implicit Types (this : VictoryBar Raw Scale) (a : axis).

(** A value used as a number. *)
Definition ToNumber (v : jsval) : num :=
  match v with
  | JUndefined => NaN
  | JNull => ofZ 0
  | JBool b => if b then ofZ 1 else ofZ 0
  | JNum n => n
  | JStr s => stringToNumber s
  | JObject _ => NaN
  end.

(** [...band] for an entry of [categories]: the elements of an array,
    the characters of a string; anything else is not iterable. *)
Definition spread (band : option category) : option (list num) :=
  match band with
  | Some (CBand l) => Some l
  | Some (CStr s) =>
      Some (map (fun c => stringToNumber (String c EmptyString))
                (String.list_ascii_of_string s))
  | Some (CNum _) | None => None
  end.

Definition getStyles (p : Props Raw) : Styles :=
  let style := default defaultStyles (p_style p) in
  {| style_parent :=
       lodash_merge
         (list_to_map [("height", JNum (p_height p)); ("width", JNum (p_width p))])
         (sp_parent style);
     style_data := lodash_merge (lodash_merge ∅ (sp_data defaultStyles)) (sp_data style);
     style_labels := lodash_merge (lodash_merge ∅ (sp_labels defaultStyles)) (sp_labels style) |}.

Definition getScale this (p : Props Raw) a : Scale :=
  let scale0 := Scale_getBaseScale p a in
  let scale1 := scale_set_range scale0 (at_axis (range this) a) in
  let scale2 := scale_set_domain scale1 (at_axis (domain this) a) in
  scale2.

(** The items of [_.flatten(props.categories)] as the numbers [Math.min]
    and [Math.max] see. *)
Definition flatten_categories (cats : list category) : list num :=
  lodash_flatten
    (map (fun c => match c with
                   | CBand l => l
                   | CNum n => [n]
                   | CStr s => [stringToNumber s]
                   end) cats).

Definition getDomainFromCategories (p : Props Raw) a : option (list num) :=
  match p_categories p with
  | Some cats =>
      if bool_decide (a <> AxisX) || Collection_containsStrings cats
      then None
      else
        let categories := flatten_categories cats in
        Some [Math_min categories; Math_max categories]
  | None => None
  end.

(** [props.domain && props.domain[axis]] *)
Definition domain_for_axis (p : Props Raw) a : option (list num) :=
  match p_domain p with
  | Some (DomainPerAxis d) => at_axis d a
  | Some (DomainArray _) | None => None
  end.

Definition getDomain (p : Props Raw) a : list num :=
  let categoryDomain := getDomainFromCategories p a in
  let domain :=
    match domain_for_axis p a with
    | Some d => d
    | None =>
        match p_domain p with
        | Some (DomainArray d) => d
        | _ =>
            match categoryDomain with
            | Some d => d
            | None => Chart_getDomainFromGroupedData p a
            end
        end
    end in
  Chart_padDomain domain a.

(** One statement of [getCalculatedValues] after the other, each on the
    instance the previous one left. *)
Definition getCalculatedValues this (p : Props Raw) : VictoryBar Raw Scale :=
  let this1 :=
    {| props := props this; style := getStyles p; padding := padding this;
       stringMap := stringMap this; datasets := datasets this;
       range := range this; domain := domain this; scale := scale this |} in
  let this2 :=
    {| props := props this1; style := style this1; padding := Chart_getPadding p;
       stringMap := stringMap this1; datasets := datasets this1;
       range := range this1; domain := domain this1; scale := scale this1 |} in
  let this3 :=
    {| props := props this2; style := style this2; padding := padding this2;
       stringMap := {| on_x := Data_createStringMap p AxisX;
                       on_y := Data_createStringMap p AxisY |};
       datasets := datasets this2;
       range := range this2; domain := domain this2; scale := scale this2 |} in
  let this4 :=
    {| props := props this3; style := style this3; padding := padding this3;
       stringMap := stringMap this3; datasets := Data_consolidateData p;
       range := range this3; domain := domain this3; scale := scale this3 |} in
  let this5 :=
    {| props := props this4; style := style this4; padding := padding this4;
       stringMap := stringMap this4; datasets := datasets this4;
       range := {| on_x := Chart_getRange p AxisX; on_y := Chart_getRange p AxisY |};
       domain := domain this4; scale := scale this4 |} in
  let this6 :=
    {| props := props this5; style := style this5; padding := padding this5;
       stringMap := stringMap this5; datasets := datasets this5;
       range := range this5;
       domain := {| on_x := getDomain p AxisX; on_y := getDomain p AxisY |};
       scale := scale this5 |} in
  {| props := props this6; style := style this6; padding := padding this6;
     stringMap := stringMap this6; datasets := datasets this6;
     range := range this6; domain := domain this6;
     scale := {| on_x := getScale this6 p AxisX; on_y := getScale this6 p AxisY |} |}.

Definition pixelsToValue this (pixels : jsval) a : num :=
  let domainExtent :=
    nsub (Math_max (at_axis (domain this) a)) (Math_min (at_axis (domain this) a)) in
  let rangeExtent :=
    nsub (Math_max (at_axis (range this) a)) (Math_min (at_axis (range this) a)) in
  nmul (ndiv domainExtent rangeExtent) (ToNumber pixels).

Definition adjustX this (data : DataPoint) (index : nat) (options : option Options)
    : option num :=
  let x := datum_x data in
  let stacked := match options with Some o => stacked o | None => false end in
  let count := length (datasets this) in
  let center :=
    if (count mod 2 =? 0)%nat
    then ndiv (ofNat count) (ofZ 2)
    else ndiv (nsub (ofNat count) (ofZ 1)) (ofZ 2) in
  let centerOffset := nsub (ofNat index) center in
  let totalWidth :=
    nadd (pixelsToValue this (js_prop (style_data (style this)) "padding") AxisX)
         (pixelsToValue this (js_prop (style_data (style this)) "width") AxisX) in
  match datum_category data with
  | Some category =>
      categories ← p_categories (props this);
      rangeBand ← spread (js_index categories category);
      let bandCenter := ndiv (nadd (Math_max rangeBand) (Math_min rangeBand)) (ofZ 2) in
      Some (if stacked then bandCenter
            else nadd bandCenter (nmul centerOffset totalWidth))
  | None =>
      Some (if stacked then x else nadd x (nmul centerOffset totalWidth))
  end.

(** [bar[barIndex]] where it is compared and added: [undefined] behaves
    as [NaN] in both comparisons, so such a value is never added. *)
Definition bar_value (bar : list num) (barIndex : nat) : num :=
  default NaN (bar !! barIndex).

(** The test of the reducer in [getYOffset]. *)
Definition sameSign (y barValue : num) : bool :=
  (nlt y (ofZ 0) && nlt barValue (ofZ 0)) || (nge y (ofZ 0) && nge barValue (ofZ 0)).

Definition getYOffset this (data : DataPoint) (index barIndex : nat) : num :=
  let minY := Math_min (on_y (domain this)) in
  if (index =? 0)%nat then Math_max [minY; ofZ 0]
  else
    let y := datum_y data in
    let previousDataSets := take index (datasets this) in
    let previousBars := map (fun dataset => map datum_y (ds_data dataset)) previousDataSets in
    fold_left
      (fun memo bar =>
         let barValue := bar_value bar barIndex in
         if sameSign y barValue then nadd memo barValue else memo)
      previousBars (ofZ 0).

Definition getLabelIndex this (data : DataPoint) : num :=
  match datum_category data with
  | Some category => category
  | None =>
      match on_x (stringMap this) with
      | Some _ => nsub (datum_x data) (ofZ 1)
      | None =>
          let allX := map (fun dataset => map datum_x (ds_data dataset)) (datasets this) in
          let uniqueX := lodash_uniq (lodash_flatten allX) in
          lodash_findIndex (lodash_sortBy uniqueX) (fun n => strict_eq n (datum_x data))
      end
  end.

Definition getBarPosition this (data : DataPoint) (index barIndex : nat)
    : option Position :=
  let stacked := p_stacked (props this) in
  let yOffset := getYOffset this data index barIndex in
  let y0 := if stacked then yOffset else Math_max [Math_min (on_y (domain this)); ofZ 0] in
  let y1 := if stacked then nadd yOffset (datum_y data) else datum_y data in
  x ← adjustX this data index (Some {| stacked := stacked |});
  Some {| independent := scale_call (on_x (scale this)) x;
          dependent0 := scale_call (on_y (scale this)) y0;
          dependent1 := scale_call (on_y (scale this)) y1 |}.

(** The body of the callback of [renderBars], for the bar [barIndex] of
    the dataset [index]. *)
Definition renderBar this (index : nat) (plotGroupLabel : bool)
    (barIndex : nat) (data : DataPoint) : option RenderedBar :=
  position ← getBarPosition this data index barIndex;
  let plotLabel :=
    plotGroupLabel &&
    (bool_decide (is_Some (p_labels (props this))) ||
     bool_decide (is_Some (p_labelComponents (props this)))) in
  if plotLabel then
    let labelIndex := getLabelIndex this data in
    let labelText :=
      match p_labels (props this) with
      | Some labels => js_or (js_get labels labelIndex) (js_get labels (ofZ 0))
      | None => JStr ""
      end in
    let labelComponent :=
      match p_labelComponents (props this) with
      | Some labelComponents =>
          js_or (js_get labelComponents (ofNat index)) (js_get labelComponents (ofZ 0))
      | None => JUndefined
      end in
    Some {| bar_series := index; bar_index := barIndex; bar_position := position;
            bar_data := data;
            bar_label := Some {| labelText := labelText;
                                 labelComponent := labelComponent |} |}
  else
    Some {| bar_series := index; bar_index := barIndex; bar_position := position;
            bar_data := data; bar_label := None |}.

Definition renderBars this (dataset : Dataset) (index : nat)
    : option (list RenderedBar) :=
  let isCenter :=
    strict_eq (Math_floor (ndiv (ofNat (length (datasets this))) (ofZ 2))) (ofNat index) in
  let isLast := (length (datasets this) =? index + 1)%nat in
  let stacked := p_stacked (props this) in
  let plotGroupLabel := (stacked && isLast) || (negb stacked && isCenter) in
  mapM id (imap (renderBar this index plotGroupLabel) (ds_data dataset)).

Definition renderData this : option (list (list RenderedBar)) :=
  mapM id (imap (fun index dataset => renderBars this dataset index) (datasets this)).

(** [render]: the instance it leaves and the element it returns. *)
Definition render this : VictoryBar Raw Scale * option (Element Raw) :=
  match p_animate (props this) with
  | Some animate => (this, Some (VictoryAnimation animate (props this)))
  | None =>
      let this' := getCalculatedValues this (props this) in
      let style := style_parent (style this') in
      (this',
       group ← renderData this';
       Some (if p_standalone (props this') then Svg style group else Group style group))
  end.
End Component.

(** ** Writing data down *)

(** The point [{x: x, y: y}] and the dataset of some points, without name,
    attributes, category or style overrides. *)
Definition point (x y : Z) : DataPoint :=
  {| datum_x := ofZ x; datum_y := ofZ y; datum_category := None; datum_rest := ∅ |}.

Definition series (points : list DataPoint) : Dataset :=
  {| ds_name := None; ds_attrs := ∅; ds_data := points |}.

(** ** Quantities the specification names *)

(** Strictly before, in the order of [_.sortBy]. *)
Definition sort_lt (a b : num) : Prop := sort_le a b /\ a <> b.

#[global] Instance sort_lt_dec : RelDecision sort_lt.
Proof. intros a b. unfold sort_lt. apply _. Defined.

(** The sum of a list of numbers, added from the left starting at [0]. *)
Definition sum_in_order (l : list num) : num := fold_left nadd l (ofZ 0).

Section Named.
Context {Raw Scale : Type} `{!Collaborators Raw Scale}.

Implicit Types (this : VictoryBar Raw Scale).

(** The bar padding plus the bar width, in domain units: the
    [totalWidth] of [adjustX]. *)
Definition totalWidth this : num :=
  nadd (pixelsToValue this (js_prop (style_data (style this)) "padding") AxisX)
       (pixelsToValue this (js_prop (style_data (style this)) "width") AxisX).

(** [props.style.parent[key]], [undefined] when there is no [style]
    prop, no [parent] in it, or no such key. *)
Definition user_parent_value (p : Props Raw) (key : string) : jsval :=
  match p_style p with
  | Some style =>
      match sp_parent style with
      | Some parent => js_prop parent key
      | None => JUndefined
      end
  | None => JUndefined
  end.

(** The values of the datasets before [index] at the point index
    [barIndex], in dataset order. *)
Definition prior_values this (index barIndex : nat) : list num :=
  map (fun dataset => bar_value (map datum_y (ds_data dataset)) barIndex)
      (take index (datasets this)).

(** The [y0] and [y1] of [getBarPosition]: the dependent-axis start and
    end of a bar before the scale is applied. *)
Definition bar_y0 this (data : DataPoint) (index barIndex : nat) : num :=
  if p_stacked (props this) then getYOffset this data index barIndex
  else Math_max [Math_min (on_y (domain this)); ofZ 0].

Definition bar_y1 this (data : DataPoint) (index barIndex : nat) : num :=
  if p_stacked (props this)
  then nadd (getYOffset this data index barIndex) (datum_y data)
  else datum_y data.

(** The domain of an axis in the words of the specification, before
    padding: (1) the explicit domain of the axis, (2) the domain array
    shared by both axes, (3) on the x axis, with categories that contain
    no string, the extent of the flattened categories, (4) the scan of
    the datasets; the first that applies. *)
Definition explicit_axis_domain (p : Props Raw) (a : axis) : option (list num) :=
  match p_domain p with
  | Some (DomainPerAxis d) => at_axis d a
  | _ => None
  end.

Definition shared_domain (p : Props Raw) : option (list num) :=
  match p_domain p with
  | Some (DomainArray d) => Some d
  | _ => None
  end.

Definition is_string (c : category) : bool :=
  match c with
  | CStr _ => true
  | _ => false
  end.

Definition band_domain (p : Props Raw) (a : axis) : option (list num) :=
  match a, p_categories p with
  | AxisX, Some cats =>
      if forallb (fun c => negb (is_string c)) cats
      then Some [Math_min (flatten_categories cats); Math_max (flatten_categories cats)]
      else None
  | _, _ => None
  end.

Definition domain_by_priority (p : Props Raw) (a : axis) : list num :=
  match explicit_axis_domain p a with
  | Some d => d
  | None =>
      match shared_domain p with
      | Some d => d
      | None =>
          match band_domain p a with
          | Some d => d
          | None => Chart_getDomainFromGroupedData p a
          end
      end
  end.

(** The x values of all datasets, and the sorted set of the unique
    ones. *)
Definition all_x this : list num :=
  lodash_flatten (map (fun dataset => map datum_x (ds_data dataset)) (datasets this)).

Definition sorted_unique_x this : list num := lodash_sortBy (lodash_uniq (all_x this)).

(** The [plotGroupLabel] of [renderBars] for the dataset [index]. *)
Definition plotGroupLabel this (index : nat) : bool :=
  let isCenter :=
    strict_eq (Math_floor (ndiv (ofNat (length (datasets this))) (ofZ 2))) (ofNat index) in
  let isLast := (length (datasets this) =? index + 1)%nat in
  let stacked := p_stacked (props this) in
  (stacked && isLast) || (negb stacked && isCenter).

(** Labels or label components are configured. *)
Definition labels_configured this : bool :=
  bool_decide (is_Some (p_labels (props this))) ||
  bool_decide (is_Some (p_labelComponents (props this))).

(** The dataset the specification gives the label of a group to: the
    last one when stacked, the one at half the dataset count otherwise. *)
Definition label_carrier this : nat :=
  if p_stacked (props this)
  then (length (datasets this) - 1)%nat
  else (length (datasets this) / 2)%nat.

(** The point can be placed: it has no category, or its category is the
    index of an entry of [props.categories] that can be spread. *)
Definition has_band this (data : DataPoint) : Prop :=
  match datum_category data with
  | None => True
  | Some category =>
      is_Some (categories ← p_categories (props this);
               spread (js_index categories category))
  end.

(** A pair of grouped bars centred on the nominal [x]: one bar half a
    [totalWidth] below it, the other half a [totalWidth] above. *)
Definition symmetric_pair this (data : DataPoint) : Prop :=
  let half := nmul (ofQ (1 # 2)) (totalWidth this) in
  let unstacked := Some {| stacked := false |} in
  exists x0 x1,
    adjustX this data 0 unstacked = Some x0 /\
    adjustX this data 1 unstacked = Some x1 /\
    ((x0 = nsub (datum_x data) half /\ x1 = nadd (datum_x data) half) \/
     (x0 = nadd (datum_x data) half /\ x1 = nsub (datum_x data) half)).
End Named.

(** ** A concrete set of collaborators

    Enough of victory-util and d3-scale to run the component on examples:
    the [data] prop holds consolidated datasets, the domain of an axis is
    the extent of the data on it, no domain padding, no string values, and
    every scale is linear. *)
Module Sample.

Record Linear : Type := { lin_range : list num; lin_domain : list num }.

Definition linear_call (s : Linear) (v : num) : num :=
  match lin_domain s, lin_range s with
  | [d0; d1], [r0; r1] =>
      nadd r0 (nmul (ndiv (nsub v d0) (nsub d1 d0)) (nsub r1 r0))
  | _, _ => NaN
  end.

Definition values (p : Props (list Dataset)) (a : axis) : list num :=
  concat (map (fun ds => map (match a with AxisX => datum_x | AxisY => datum_y end)
                             (ds_data ds)) (p_raw p)).

Definition collaborators : Collaborators (list Dataset) Linear := {|
  stringToNumber := fun _ => NaN;
  Chart_getPadding := fun _ =>
    {| pad_top := ofZ 50; pad_bottom := ofZ 50; pad_left := ofZ 50; pad_right := ofZ 50 |};
  Chart_getRange := fun p a =>
    match a with
    | AxisX => [ofZ 50; nsub (p_width p) (ofZ 50)]
    | AxisY => [nsub (p_height p) (ofZ 50); ofZ 50]
    end;
  Chart_getDomainFromGroupedData := fun p a => [Math_min (values p a); Math_max (values p a)];
  Chart_padDomain := fun d _ => d;
  Data_createStringMap := fun _ _ => None;
  Data_consolidateData := fun p => p_raw p;
  Scale_getBaseScale := fun _ _ => {| lin_range := [ofZ 0; ofZ 1]; lin_domain := [ofZ 0; ofZ 1] |};
  scale_set_range := fun s r => {| lin_range := r; lin_domain := lin_domain s |};
  scale_set_domain := fun s d => {| lin_range := lin_range s; lin_domain := d |};
  scale_call := linear_call
|}.

(** The default props with a stacking flag and a [domain] prop. *)
Definition config (stacked : bool) (domain : option DomainProp)
    (data : list Dataset) : Props (list Dataset) := {|
  p_animate := None;
  p_categories := None;
  p_domain := domain;
  p_height := ofZ 300;
  p_horizontal := false;
  p_labels := None;
  p_labelComponents := None;
  p_stacked := stacked;
  p_standalone := true;
  p_style := None;
  p_width := ofZ 450;
  p_raw := data
|}.

(** An instance on which nothing has been calculated yet. *)
Definition mount (p : Props (list Dataset)) : VictoryBar (list Dataset) Linear := {|
  props := p;
  style := {| style_parent := ∅; style_data := ∅; style_labels := ∅ |};
  padding := {| pad_top := NaN; pad_bottom := NaN; pad_left := NaN; pad_right := NaN |};
  stringMap := {| on_x := None; on_y := None |};
  datasets := [];
  range := {| on_x := []; on_y := [] |};
  domain := {| on_x := []; on_y := [] |};
  scale := {| on_x := {| lin_range := []; lin_domain := [] |};
              on_y := {| lin_range := []; lin_domain := [] |} |}
|}.

(** The instance after one pass of [getCalculatedValues]. *)
Definition calculated (p : Props (list Dataset)) : VictoryBar (list Dataset) Linear :=
  @getCalculatedValues _ _ collaborators (mount p) p.

End Sample.

(** ** Example charts *)

(** A chart of two datasets at the x values 1 and 2, 356 pixels wide: the
    x range is [[50, 306]], the x domain [[1, 2]], and the default bar
    padding (6) and width (8) make a [totalWidth] of [14/256]. *)
Definition pair_chart : VictoryBar (list Dataset) Sample.Linear :=
  Sample.calculated
    {| p_animate := None; p_categories := None; p_domain := None;
       p_height := ofZ 300; p_horizontal := false; p_labels := None;
       p_labelComponents := None; p_stacked := false; p_standalone := true;
       p_style := None; p_width := ofZ 356;
       p_raw := [series [point 1 2; point 2 3];
                 series [point 1 2; point 2 3]] |}.

(** The default chart (300 by 450 pixels) with the style
    [{parent: {height: 100}}]. *)
Definition short_parent_props : Props (list Dataset) :=
  {| p_animate := None; p_categories := None; p_domain := None;
     p_height := ofZ 300; p_horizontal := false; p_labels := None;
     p_labelComponents := None; p_stacked := false; p_standalone := true;
     p_style := Some {| sp_parent := Some {[ "height" := JNum (ofZ 100) ]};
                        sp_data := None; sp_labels := None |};
     p_width := ofZ 450;
     p_raw := [series [point 1 1]] |}.

(** The stacked chart of [[[{x:1,y:3}],[{x:1,y:-2}]]]. *)
Definition mixed_stack_chart : VictoryBar (list Dataset) Sample.Linear :=
  Sample.calculated
    (Sample.config true None
       [series [point 1 3]; series [point 1 (-2)]]).



(** The stacked chart of [[[{x:1,y:3}],[{x:1,y:-2}],[{x:1,y:0}]]]. *)
Definition zero_stack_chart : VictoryBar (list Dataset) Sample.Linear :=
  Sample.calculated
    (Sample.config true None
       [series [point 1 3]; series [point 1 (-2)];
        series [point 1 0]]).

(** The default chart of one dataset with the categories
    [[[0, 5], [5, 10]]], and with the categories [["low", "high"]]. *)
Definition band_props : Props (list Dataset) :=
  {| p_animate := None;
     p_categories := Some [CBand [ofZ 0; ofZ 5]; CBand [ofZ 5; ofZ 10]];
     p_domain := None;
     p_height := ofZ 300; p_horizontal := false; p_labels := None;
     p_labelComponents := None; p_stacked := false; p_standalone := true;
     p_style := None; p_width := ofZ 450;
     p_raw := [series [point 1 1; point 7 2]] |}.

Definition string_category_props : Props (list Dataset) :=
  {| p_animate := None;
     p_categories := Some [CStr "low"; CStr "high"];
     p_domain := None;
     p_height := ofZ 300; p_horizontal := false; p_labels := None;
     p_labelComponents := None; p_stacked := false; p_standalone := true;
     p_style := None; p_width := ofZ 450;
     p_raw := [series [point 1 1; point 2 2]] |}.

(** The chart of [[[{x:3,y:1},{x:1,y:2}],[{x:2,y:5},{x:3,y:1}]]]: the
    unique x values, sorted, are [1], [2], [3]. *)
Definition scattered_chart : VictoryBar (list Dataset) Sample.Linear :=
  Sample.calculated
    (Sample.config false None
       [series [point 3 1; point 1 2]; series [point 2 5; point 3 1]]).

(** A point in the second band of the categories [[[0, 5], [5, 10]]]. *)
Definition banded_point : DataPoint :=
  {| datum_x := ofZ 7; datum_y := ofZ 2; datum_category := Some (ofZ 1);
     datum_rest := ∅ |}.

(** Three datasets of two points each, with the labels of the two groups;
    grouped, and stacked. *)
Definition labelled_props (stacked : bool) : Props (list Dataset) :=
  {| p_animate := None; p_categories := None; p_domain := None;
     p_height := ofZ 300; p_horizontal := false;
     p_labels := Some [JStr "first"; JStr "second"];
     p_labelComponents := None; p_stacked := stacked; p_standalone := true;
     p_style := None; p_width := ofZ 450;
     p_raw := [series [point 1 1; point 2 2]; series [point 1 3; point 2 1];
               series [point 1 2; point 2 2]] |}.

Definition labelled_chart (stacked : bool) : VictoryBar (list Dataset) Sample.Linear :=
  Sample.calculated (labelled_props stacked).

Definition labelled_groups (stacked : bool) : list (list RenderedBar) :=
  default [] (@renderData _ _ Sample.collaborators (labelled_chart stacked)).

(** One dataset at the x values 1 to 4, with a labels array whose second
    to fourth entries are falsy: the empty string, [0] and [null]. *)
Definition sparse_label_props : Props (list Dataset) :=
  {| p_animate := None; p_categories := None; p_domain := None;
     p_height := ofZ 300; p_horizontal := false;
     p_labels := Some [JStr "first"; JStr ""; JNum (ofZ 0); JNull];
     p_labelComponents := None; p_stacked := false; p_standalone := true;
     p_style := None; p_width := ofZ 450;
     p_raw := [series [point 1 1; point 2 2; point 3 3; point 4 4; point 5 5]] |}.

Definition sparse_label_chart : VictoryBar (list Dataset) Sample.Linear :=
  Sample.calculated sparse_label_props.

Definition sparse_label_groups : list (list RenderedBar) :=
  default [] (@renderData _ _ Sample.collaborators sparse_label_chart).

(** The second bar of [sparse_label_chart], whose label index is [1]. *)
Definition sparse_second_bar : RenderedBar :=
  {| bar_series := 0; bar_index := 1;
     bar_position := {| independent := ofQ (275 # 2); dependent0 := ofZ 250;
                        dependent1 := ofZ 200 |};
     bar_data := point 2 2;
     bar_label := Some {| labelText := JStr "first"; labelComponent := JUndefined |} |}.

(** An instance that now has the props of [labelled_chart false] and still
    holds what was calculated for [pair_chart]. *)
Definition stale_chart : VictoryBar (list Dataset) Sample.Linear :=
  {| props := labelled_props false;
     style := style pair_chart;
     padding := padding pair_chart;
     stringMap := stringMap pair_chart;
     datasets := datasets pair_chart;
     range := range pair_chart;
     domain := domain pair_chart;
     scale := scale pair_chart |}.

(** ** Further quantities *)

(** A number that is neither an infinity nor [NaN]. *)
Definition is_finite (v : num) : bool :=
  match v with
  | Fin _ => true
  | _ => false
  end.

(** [a <= b], false as soon as one side is [NaN]. *)
Definition nle (a b : num) : Prop := nge b a = true.

#[global] Instance nle_dec : RelDecision nle.
Proof. intros a b. unfold nle. apply _. Defined.

(** [v], or [fallback] where [v] is [undefined]: what a later source of
    [_.merge] leaves of an earlier one, key by key. *)
Definition defined_or (v fallback : jsval) : jsval :=
  match v with
  | JUndefined => fallback
  | _ => v
  end.

(** [_.omit(object, keys)]: the object without the given keys. *)
Definition lodash_omit (object : jsobj) (keys : list string) : jsobj :=
  filter (fun entry => entry.1 ∉ keys) object.

(** [props.style[part][key]], [undefined] when there is no [style] prop, no
    such part in it, or no such key. *)
Definition user_style_value {Raw : Type} (part : StyleProp -> option jsobj)
    (p : Props Raw) (key : string) : jsval :=
  match p_style p with
  | Some style =>
      match part style with
      | Some object => js_prop object key
      | None => JUndefined
      end
  | None => JUndefined
  end.

(** The keys of a data point that [renderBars] keeps out of the style. *)
Definition data_keys : list string :=
  ["xName"; "yName"; "x"; "y"; "label"; "category"].

(** The [style] that [renderBars] hands to the [Bar] element of a data
    point: the resolved data style, the dataset's attributes without
    [name], and the point's own keys without the data keys, merged in that
    order. *)
Definition barStyle {Raw Scale : Type} (this : VictoryBar Raw Scale)
    (dataset : Dataset) (data : DataPoint) : jsobj :=
  let styleData := lodash_omit (datum_rest data) data_keys in
  lodash_merge
    (lodash_merge
       (lodash_merge ∅ (Some (style_data (style this))))
       (Some (lodash_omit (ds_attrs dataset) ["name"])))
    (Some styleData).

(** ** More example charts *)

(** [pair_chart] with the x domain and the x range written from the upper
    end to the lower. *)
Definition mirrored_pair_chart : VictoryBar (list Dataset) Sample.Linear :=
  {| props := props pair_chart;
     style := style pair_chart;
     padding := padding pair_chart;
     stringMap := stringMap pair_chart;
     datasets := datasets pair_chart;
     range := {| on_x := [ofZ 306; ofZ 50]; on_y := on_y (range pair_chart) |};
     domain := {| on_x := [ofZ 2; ofZ 1]; on_y := on_y (domain pair_chart) |};
     scale := scale pair_chart |}.

(** Two datasets in a chart 100 pixels wide: with 50 pixels of padding on
    either side the x range is [[50, 50]]. *)
Definition narrow_chart : VictoryBar (list Dataset) Sample.Linear :=
  Sample.calculated
    {| p_animate := None; p_categories := None; p_domain := None;
       p_height := ofZ 300; p_horizontal := false; p_labels := None;
       p_labelComponents := None; p_stacked := false; p_standalone := true;
       p_style := None; p_width := ofZ 100;
       p_raw := [series [point 1 2; point 2 3]; series [point 1 2; point 2 3]] |}.

(** The chart of [band_props], and its categories. *)
Definition band_chart : VictoryBar (list Dataset) Sample.Linear :=
  Sample.calculated band_props.

Definition band_categories : list category :=
  [CBand [ofZ 0; ofZ 5]; CBand [ofZ 5; ofZ 10]].

(** The stacked chart of [[[{x:1,y:1}],[{x:1,y:2}],[{x:1,y:4}]]]. *)
Definition tall_stack_chart : VictoryBar (list Dataset) Sample.Linear :=
  Sample.calculated
    (Sample.config true None
       [series [point 1 1]; series [point 1 2]; series [point 1 4]]).

(** A stacked chart whose second dataset has a point more than its first:
    [[[{x:1,y:3}],[{x:1,y:2},{x:2,y:5}]]]. *)
Definition ragged_stack_chart : VictoryBar (list Dataset) Sample.Linear :=
  Sample.calculated
    (Sample.config true None
       [series [point 1 3]; series [point 1 2; point 2 5]]).

(** A point whose y value is not a number. *)
Definition nan_point : DataPoint :=
  {| datum_x := ofZ 1; datum_y := NaN; datum_category := None; datum_rest := ∅ |}.

(** Two datasets with label components and no labels list. *)
Definition component_props : Props (list Dataset) :=
  {| p_animate := None; p_categories := None; p_domain := None;
     p_height := ofZ 300; p_horizontal := false; p_labels := None;
     p_labelComponents := Some [JObject 0; JObject 1];
     p_stacked := false; p_standalone := true;
     p_style := None; p_width := ofZ 450;
     p_raw := [series [point 1 1; point 2 2]; series [point 1 3; point 2 1]] |}.

Definition component_chart : VictoryBar (list Dataset) Sample.Linear :=
  Sample.calculated component_props.

Definition component_groups : list (list RenderedBar) :=
  default [] (@renderData _ _ Sample.collaborators component_chart).

(** The bars of [pair_chart], which has neither labels nor label
    components. *)
Definition pair_groups : list (list RenderedBar) :=
  default [] (@renderData _ _ Sample.collaborators pair_chart).

(** A dataset whose point carries a category, in a chart without
    [categories]. *)
Definition stray_category_props : Props (list Dataset) :=
  {| p_animate := None; p_categories := None; p_domain := None;
     p_height := ofZ 300; p_horizontal := false; p_labels := None;
     p_labelComponents := None; p_stacked := false; p_standalone := true;
     p_style := None; p_width := ofZ 450;
     p_raw := [series [banded_point]] |}.

(** A data point with a fill of its own and a label, in a dataset with a
    name, a fill and an opacity. *)
Definition painted_point : DataPoint :=
  {| datum_x := ofZ 1; datum_y := ofZ 2; datum_category := None;
     datum_rest := {[ "fill" := JStr "red"; "label" := JStr "one" ]} |}.

Definition painted_series : Dataset :=
  {| ds_name := Some "first";
     ds_attrs := {[ "name" := JStr "first"; "fill" := JStr "blue";
                    "opacity" := JNum (ofQ (1 # 2)) ]};
     ds_data := [painted_point] |}.

(** The first labelled bar of [component_chart]: the first point of its
    second dataset. *)
Definition component_bar : RenderedBar :=
  {| bar_series := 1; bar_index := 0;
     bar_position := {| independent := ofZ 50; dependent0 := ofZ 250;
                        dependent1 := ofZ 50 |};
     bar_data := point 1 3;
     bar_label := Some {| labelText := JStr ""; labelComponent := JObject 1 |} |}.

(** The first bar of [pair_chart]. *)
Definition pair_first_bar : RenderedBar :=
  {| bar_series := 0; bar_index := 0;
     bar_position := {| independent := ofZ 36; dependent0 := ofZ 250;
                        dependent1 := ofZ 250 |};
     bar_data := point 1 2;
     bar_label := None |}.
(** * Properties *)

(** ** Numbers *)

Lemma ndiv_2 (q : Qc) : ndiv (Fin q) (ofZ 2) = Fin (q / Qc_of_Z 2)%Qc.
Proof. reflexivity. Qed.

Lemma Qc_of_Z_2_neq_0 : Qc_of_Z 2 <> 0%Qc.
Proof. rewrite <- Z2Qc_inj_0. intros H%Z2Qc_inj. discriminate. Qed.

Lemma half_of_double (k : Z) : ndiv (ofZ (2 * k)) (ofZ 2) = ofZ k.
Proof.
  unfold ofZ at 1. rewrite ndiv_2. unfold ofZ. f_equal.
  rewrite Z2Qc_inj_mul, Qcmult_comm. apply Qcdiv_mult_l, Qc_of_Z_2_neq_0.
Qed.

Lemma nsub_ofZ (n m : Z) : nsub (ofZ n) (ofZ m) = ofZ (n - m).
Proof. unfold nsub, ofZ. simpl. f_equal. by rewrite Z2Qc_inj_sub. Qed.

Lemma nadd_ofZ (n m : Z) : nadd (ofZ n) (ofZ m) = ofZ (n + m).
Proof. unfold ofZ. simpl. f_equal. by rewrite Z2Qc_inj_add. Qed.


Lemma ofZ_inj (n m : Z) : ofZ n = ofZ m -> n = m.
Proof. unfold ofZ. intros H. apply Z2Qc_inj. congruence. Qed.

(** The [center] of [adjustX] is the integer half of the dataset count,
    whichever branch of the parity test computes it. *)
Lemma center_half (count : nat) :
  (if (count mod 2 =? 0)%nat
   then ndiv (ofNat count) (ofZ 2)
   else ndiv (nsub (ofNat count) (ofZ 1)) (ofZ 2)) = ofNat (count / 2).
Proof.
  unfold ofNat.
  pose proof (Nat.div_mod_eq count 2) as Hdm.
  pose proof (Nat.mod_upper_bound count 2 ltac:(lia)) as Hlt.
  destruct (Nat.eqb_spec (count mod 2) 0) as [Heven | Hodd].
  - replace (Z.of_nat count) with (2 * Z.of_nat (count / 2)) by lia.
    apply half_of_double.
  - rewrite nsub_ofZ.
    replace (Z.of_nat count - 1) with (2 * Z.of_nat (count / 2)) by lia.
    apply half_of_double.
Qed.

(** ** Grouped bars *)

Section Grouped.
Context {Raw Scale : Type} `{!Collaborators Raw Scale}.

Implicit Types (this : VictoryBar Raw Scale).

(** A point without a category, not stacked: the nominal [x] moved by
    the distance of the dataset index to half the dataset count, in
    [totalWidth]s. *)
Lemma adjustX_grouped this (data : DataPoint) (index : nat) :
  datum_category data = None ->
  adjustX this data index (Some {| stacked := false |}) =
    Some (nadd (datum_x data)
            (nmul (nsub (ofNat index) (ofNat (length (datasets this) / 2)))
                  (totalWidth this))).
Proof.
  intros Hcat. unfold adjustX. rewrite Hcat. cbn [stacked].
  by rewrite center_half.
Qed.

Lemma adjustX_stacked this (data : DataPoint) (index : nat) :
  datum_category data = None ->
  adjustX this data index (Some {| stacked := true |}) = Some (datum_x data).
Proof. intros Hcat. unfold adjustX. by rewrite Hcat. Qed.

(** C1 (as the code has it): in a non-stacked chart with exactly two
    datasets, the bar of the first dataset is at the nominal [x] minus one
    [totalWidth] and the bar of the second dataset at the nominal [x]
    itself: the offsets are [-1] and [0] times [totalWidth], since the
    center of an even count [n] is [n / 2]. *)
Theorem grouped_pair_offsets this (data : DataPoint) :
  length (datasets this) = 2%nat ->
  datum_category data = None ->
  adjustX this data 0 (Some {| stacked := false |}) =
    Some (nadd (datum_x data) (nmul (ofZ (-1)) (totalWidth this))) /\
  adjustX this data 1 (Some {| stacked := false |}) =
    Some (nadd (datum_x data) (nmul (ofZ 0) (totalWidth this))).
Proof.
  intros Hlen Hcat. rewrite !adjustX_grouped by done. rewrite Hlen.
  change (2 / 2)%nat with 1%nat. unfold ofNat. by rewrite !nsub_ofZ.
Qed.
End Grouped.

Lemma pair_chart_totalWidth :
  @totalWidth _ _ Sample.collaborators pair_chart = ofQ (7 # 128).
Proof. compute_done. Qed.

(** Witness of C1: the two bars at [x = 1] of [pair_chart]. *)
Lemma grouped_pair_offsets_witness :
  length (datasets pair_chart) = 2%nat /\
  datum_category (point 1 2) = None /\
  @adjustX _ _ Sample.collaborators pair_chart (point 1 2) 0
    (Some {| stacked := false |}) =
    Some (nadd (ofZ 1) (nmul (ofZ (-1)) (@totalWidth _ _ Sample.collaborators pair_chart))) /\
  @adjustX _ _ Sample.collaborators pair_chart (point 1 2) 1
    (Some {| stacked := false |}) =
    Some (nadd (ofZ 1) (nmul (ofZ 0) (@totalWidth _ _ Sample.collaborators pair_chart))).
Proof.
  split; [reflexivity|]. split; [reflexivity|].
  apply (@grouped_pair_offsets _ _ Sample.collaborators pair_chart (point 1 2));
    reflexivity.
Defined.

Lemma pair_chart_positions :
  @adjustX _ _ Sample.collaborators pair_chart (point 1 2) 0
    (Some {| stacked := false |}) = Some (ofQ (121 # 128)) /\
  @adjustX _ _ Sample.collaborators pair_chart (point 1 2) 1
    (Some {| stacked := false |}) = Some (ofZ 1).
Proof. split; compute_done. Qed.

(** C1 (as stated) fails on [pair_chart]: the bars at [x = 1] are at
    [121/128] and at [1], not at [1 - 7/256] and [1 + 7/256]. *)
Lemma grouped_pair_not_symmetric :
  ~ @symmetric_pair _ _ Sample.collaborators pair_chart (point 1 2).
Proof.
  intros (x0 & x1 & H0 & H1 & Hsym).
  assert (x0 = ofQ (121 # 128)) as ->.
  { apply (inj Some). rewrite <- H0. compute_done. }
  assert (x1 = ofZ 1) as ->.
  { apply (inj Some). rewrite <- H1. compute_done. }
  destruct Hsym as [[Hlow _] | [Hhigh _]].
  - revert Hlow. compute_done.
  - revert Hhigh. compute_done.
Qed.

(** ** Styles *)

Lemma lodash_merge_lookup (object : jsobj) (source : option jsobj) (key : string) :
  lodash_merge object source !! key =
    merge_entry (object !! key) (source ≫= (.!! key)).
Proof.
  destruct source as [src|]; simpl; [|done].
  rewrite lookup_merge. by destruct (object !! key), (src !! key).
Qed.

Lemma lodash_merge_prop (object : jsobj) (source : option jsobj) (key : string) :
  js_prop (lodash_merge object source) key =
    match source ≫= (.!! key) with
    | None | Some JUndefined => js_prop object key
    | Some v => v
    end.
Proof.
  unfold js_prop. rewrite lodash_merge_lookup.
  by destruct (source ≫= (.!! key)) as [[]|].
Qed.

Section Styles.
Context {Raw : Type}.

Implicit Types (p : Props Raw).

Lemma getStyles_parent_prop p (key : string) :
  js_prop (style_parent (getStyles p)) key =
    match user_parent_value p key with
    | JUndefined =>
        js_prop (list_to_map [("height", JNum (p_height p));
                              ("width", JNum (p_width p))]) key
    | v => v
    end.
Proof.
  unfold getStyles, user_parent_value. cbn [style_parent].
  rewrite lodash_merge_prop.
  destruct (p_style p) as [st|]; cbn [default defaultStyles sp_parent mbind option_bind];
    [|done].
  unfold id. destruct (sp_parent st) as [parent|]; cbn [mbind option_bind]; [|done].
  unfold js_prop. by destruct (parent !! key) as [[]|].
Qed.

(** C2 (as the code has it): the resolved parent style's [height] and
    [width] are the values of the user-supplied parent style where it
    defines them, and the chart's pixel dimensions [props.height] and
    [props.width] only where it leaves them undefined. *)
Theorem parent_dimensions p :
  js_prop (style_parent (getStyles p)) "height" =
    (if bool_decide (user_parent_value p "height" = JUndefined)
     then JNum (p_height p) else user_parent_value p "height") /\
  js_prop (style_parent (getStyles p)) "width" =
    (if bool_decide (user_parent_value p "width" = JUndefined)
     then JNum (p_width p) else user_parent_value p "width").
Proof.
  rewrite !getStyles_parent_prop.
  split; case_bool_decide as Hu; [by rewrite Hu | | by rewrite Hu |];
    by destruct (user_parent_value p _).
Qed.
End Styles.

(** C2 (as stated) fails on [short_parent_props]: the resolved parent
    height is the style's 100, not the chart's 300. *)
Lemma parent_height_overridden :
  p_height short_parent_props = ofZ 300 /\
  js_prop (style_parent (getStyles short_parent_props)) "height" = JNum (ofZ 100) /\
  js_prop (style_parent (getStyles short_parent_props)) "height" <>
    JNum (p_height short_parent_props).
Proof. repeat split; compute_done. Qed.

(** ** Stacked bars *)

Lemma conditional_sum (keep : num -> bool) (vs : list num) (memo : num) :
  fold_left (fun memo v => if keep v then nadd memo v else memo) vs memo =
  fold_left nadd (filter (fun v => keep v = true) vs) memo.
Proof.
  revert memo. induction vs as [|v vs IH]; intros memo; [done|].
  cbn [fold_left]. rewrite filter_cons. destruct (keep v) eqn:Hk.
  - rewrite decide_True by done. cbn [fold_left]. apply IH.
  - rewrite decide_False by done. apply IH.
Qed.

Lemma fold_left_through {A B C : Type} (f : C -> B -> C) (h : A -> B)
    (l : list A) (c : C) :
  fold_left (fun c a => f c (h a)) l c = fold_left f (map h l) c.
Proof. revert c. induction l as [|a l IH]; intros c; [done|]. apply IH. Qed.

Lemma nlt_0_0 : nlt (ofZ 0) (ofZ 0) = false.
Proof. reflexivity. Qed.

Lemma nge_0_0 : nge (ofZ 0) (ofZ 0) = true.
Proof. reflexivity. Qed.

Lemma nlt_nge_excl (a b : num) : nlt a b = true -> nge a b = false.
Proof. destruct a, b; simpl; try done; by intros ->. Qed.

(** A negative value matches exactly the negative values. *)
Lemma sameSign_negative (y v : num) :
  nlt y (ofZ 0) = true -> sameSign y v = nlt v (ofZ 0).
Proof.
  intros Hy. unfold sameSign. rewrite Hy, (nlt_nge_excl _ _ Hy). simpl.
  apply orb_false_r.
Qed.

(** A value that is zero or more matches exactly the values that are zero
    or more. *)
Lemma sameSign_nonnegative (y v : num) :
  nge y (ofZ 0) = true -> sameSign y v = nge v (ofZ 0).
Proof.
  intros Hy. unfold sameSign. rewrite Hy.
  destruct (nlt y (ofZ 0)) eqn:Hlt; [|done].
  apply nlt_nge_excl in Hlt. congruence.
Qed.

Lemma filter_ext_bool (f g : num -> bool) (l : list num) :
  (forall v, f v = g v) ->
  filter (fun v => f v = true) l = filter (fun v => g v = true) l.
Proof. intros Hfg. apply list_filter_iff. intros v. by rewrite Hfg. Qed.

Section Stacking.
Context {Raw Scale : Type} `{!Collaborators Raw Scale}.
Implicit Types (this : VictoryBar Raw Scale).

Lemma getYOffset_first this (data : DataPoint) (barIndex : nat) :
  getYOffset this data 0 barIndex = Math_max [Math_min (on_y (domain this)); ofZ 0].
Proof. reflexivity. Qed.

Lemma getYOffset_later this (data : DataPoint) (index barIndex : nat) :
  getYOffset this data (S index) barIndex =
    sum_in_order
      (filter (fun v => sameSign (datum_y data) v = true)
              (prior_values this (S index) barIndex)).
Proof.
  unfold getYOffset, sum_in_order, prior_values. cbn [Nat.eqb].
  rewrite <- conditional_sum. rewrite <- !fold_left_through. reflexivity.
Qed.

Lemma getBarPosition_unfold this (data : DataPoint) (index barIndex : nat) :
  getBarPosition this data index barIndex =
    x ← adjustX this data index (Some {| stacked := p_stacked (props this) |});
    Some {| independent := scale_call (on_x (scale this)) x;
            dependent0 := scale_call (on_y (scale this)) (bar_y0 this data index barIndex);
            dependent1 := scale_call (on_y (scale this)) (bar_y1 this data index barIndex) |}.
Proof. reflexivity. Qed.

(** C3: the offset of a bar of the first dataset is the larger of the y
    domain's minimum and [0]; the offset of a bar of a later dataset is
    the sum, over the datasets before it, of the values at the same point
    index whose sign matches the bar's own value: the negative ones for a
    negative value, the ones that are zero or more otherwise.  For the
    stacked data [[[{x:1,y:3}],[{x:1,y:-2}]]] the negative bar starts at
    [0]. *)
Theorem stacked_offset_by_sign this (data : DataPoint) (index barIndex : nat) :
  getYOffset this data 0 barIndex = Math_max [Math_min (on_y (domain this)); ofZ 0] /\
  getYOffset this data (S index) barIndex =
    sum_in_order
      (filter (fun v => sameSign (datum_y data) v = true)
              (prior_values this (S index) barIndex)) /\
  (nlt (datum_y data) (ofZ 0) = true ->
   getYOffset this data (S index) barIndex =
     sum_in_order
       (filter (fun v => nlt v (ofZ 0) = true) (prior_values this (S index) barIndex))) /\
  (nge (datum_y data) (ofZ 0) = true ->
   getYOffset this data (S index) barIndex =
     sum_in_order
       (filter (fun v => nge v (ofZ 0) = true) (prior_values this (S index) barIndex))) /\
  (p_stacked (props this) = true ->
   datasets this = [series [point 1 3]; series [point 1 (-2)]] ->
   bar_y0 this (point 1 (-2)) 1 0 = ofZ 0 /\
   dependent0 <$> getBarPosition this (point 1 (-2)) 1 0 =
     Some (scale_call (on_y (scale this)) (ofZ 0))).
Proof.
  split; [apply getYOffset_first|]. split; [apply getYOffset_later|].
  split; [|split].
  - intros Hneg. rewrite getYOffset_later. f_equal.
    apply filter_ext_bool. intros v. by apply sameSign_negative.
  - intros Hpos. rewrite getYOffset_later. f_equal.
    apply filter_ext_bool. intros v. by apply sameSign_nonnegative.
  - intros Hst Hds.
    assert (getYOffset this (point 1 (-2)) 1 0 = ofZ 0) as Hoffset.
    { rewrite getYOffset_later. unfold prior_values. rewrite Hds. compute_done. }
    unfold bar_y0, getBarPosition. rewrite Hst, Hoffset. split; [done|].
    by rewrite adjustX_stacked.
Qed.


(** C10: a value of exactly [0] stacks with the values that are zero or
    more, as the current value and as a prior value; the offset of a
    zero-valued bar of a later dataset is the sum of the prior values
    that are zero or more. *)
Theorem zero_counts_as_positive this (data : DataPoint) (index barIndex : nat)
    (v : num) :
  sameSign (ofZ 0) v = nge v (ofZ 0) /\
  sameSign v (ofZ 0) = nge v (ofZ 0) /\
  (datum_y data = ofZ 0 ->
   getYOffset this data (S index) barIndex =
     sum_in_order
       (filter (fun v => nge v (ofZ 0) = true) (prior_values this (S index) barIndex))).
Proof.
  split; [by apply sameSign_nonnegative|]. split.
  - unfold sameSign. rewrite nlt_0_0, nge_0_0.
    rewrite andb_false_r. simpl. apply andb_true_r.
  - intros Hy. rewrite getYOffset_later.
    rewrite (filter_ext_bool (sameSign (datum_y data)) (fun w => nge w (ofZ 0))); [done|].
    intros w. apply sameSign_nonnegative. by rewrite Hy.
Qed.
End Stacking.

(** Witness of C3: the negative bar of [mixed_stack_chart]. *)
Lemma stacked_offset_by_sign_witness :
  (nlt (datum_y (point 1 (-2))) (ofZ 0) = true /\
   getYOffset mixed_stack_chart (point 1 (-2)) 1 0 =
     sum_in_order
       (filter (fun v => nlt v (ofZ 0) = true) (prior_values mixed_stack_chart 1 0))) /\
  (p_stacked (props mixed_stack_chart) = true /\
   datasets mixed_stack_chart = [series [point 1 3]; series [point 1 (-2)]] /\
   bar_y0 mixed_stack_chart (point 1 (-2)) 1 0 = ofZ 0 /\
   dependent0 <$> @getBarPosition _ _ Sample.collaborators mixed_stack_chart
                    (point 1 (-2)) 1 0 =
     Some (@scale_call _ _ Sample.collaborators (on_y (scale mixed_stack_chart)) (ofZ 0))).
Proof.
  destruct (@stacked_offset_by_sign _ _ Sample.collaborators mixed_stack_chart
              (point 1 (-2)) 0 0)
    as (_ & _ & Hnegative & _ & Hexample).
  split.
  - split; [reflexivity|]. apply Hnegative. reflexivity.
  - split; [reflexivity|]. split; [reflexivity|]. apply Hexample; reflexivity.
Defined.

Lemma mixed_stack_positions :
  @getBarPosition _ _ Sample.collaborators mixed_stack_chart (point 1 3) 0 0 =
    Some {| independent := NaN; dependent0 := ofZ 170; dependent1 := ofZ 50 |}.
Proof. compute_done. Qed.



(** Witness of C10: the zero-valued bar of [zero_stack_chart]. *)
Lemma zero_counts_as_positive_witness :
  datum_y (point 1 0) = ofZ 0 /\
  getYOffset zero_stack_chart (point 1 0) 2 0 =
    sum_in_order
      (filter (fun v => nge v (ofZ 0) = true) (prior_values zero_stack_chart 2 0)).
Proof.
  split; [reflexivity|].
  destruct (zero_counts_as_positive zero_stack_chart (point 1 0) 1 0 (ofZ 0))
    as (_ & _ & Hzero).
  apply Hzero. reflexivity.
Defined.

Lemma zero_stack_offset : getYOffset zero_stack_chart (point 1 0) 2 0 = ofZ 3.
Proof. compute_done. Qed.

(** ** Domains *)

Lemma containsStrings_forallb (cats : list category) :
  Collection_containsStrings cats = negb (forallb (fun c => negb (is_string c)) cats).
Proof.
  unfold Collection_containsStrings.
  induction cats as [|c cats IH]; [done|].
  cbn [existsb forallb]. rewrite IH. by destruct c.
Qed.

Lemma containsStrings_elem (cats : list category) (s : string) :
  CStr s ∈ cats -> Collection_containsStrings cats = true.
Proof.
  intros Hin. unfold Collection_containsStrings. apply existsb_exists.
  exists (CStr s). split; [by apply list_elem_of_In|done].
Qed.

Section Domains.
Context {Raw Scale : Type} `{!Collaborators Raw Scale}.
Implicit Types (p : Props Raw) (a : axis).

Lemma getDomainFromCategories_band p a :
  getDomainFromCategories p a = band_domain p a.
Proof.
  unfold getDomainFromCategories, band_domain.
  destruct (p_categories p) as [cats|]; [|by destruct a].
  rewrite containsStrings_forallb.
  destruct a; cbn; [|done].
  by destruct (forallb _ cats).
Qed.

(** C5: the domain of an axis is the padded result of the first of: the
    explicit domain of the axis; the shared domain array; on the x axis,
    with categories that contain no string, the minimum and maximum of
    the flattened categories; the scan of the datasets.  Categories that
    contain a string contribute nothing, and neither do categories on the
    y axis. *)
Theorem domain_resolution p a :
  getDomain p a = Chart_padDomain (domain_by_priority p a) a /\
  (forall cats,
     p_categories p = Some cats -> Collection_containsStrings cats = true ->
     getDomainFromCategories p a = None /\
     getDomain p a =
       Chart_padDomain
         (match explicit_axis_domain p a with
          | Some d => d
          | None =>
              match shared_domain p with
              | Some d => d
              | None => Chart_getDomainFromGroupedData p a
              end
          end) a) /\
  getDomainFromCategories p AxisY = None.
Proof.
  assert (getDomain p a = Chart_padDomain (domain_by_priority p a) a) as Hres.
  { unfold getDomain, domain_by_priority, domain_for_axis, explicit_axis_domain,
      shared_domain.
    rewrite getDomainFromCategories_band.
    destruct (p_domain p) as [[d|d]|]; [done| |done].
    by destruct (at_axis d a). }
  split; [done|]. split.
  - intros cats Hcats Hstrings.
    assert (getDomainFromCategories p a = None) as Hnone.
    { unfold getDomainFromCategories. rewrite Hcats, Hstrings.
      by rewrite orb_true_r. }
    split; [done|]. rewrite Hres. unfold domain_by_priority.
    by rewrite <- getDomainFromCategories_band, Hnone.
  - unfold getDomainFromCategories. by destruct (p_categories p).
Qed.
End Domains.

(** Witness of C5: the x domain of [string_category_props] comes from the
    scan of the datasets. *)
Lemma domain_resolution_witness :
  p_categories string_category_props = Some [CStr "low"; CStr "high"] /\
  Collection_containsStrings [CStr "low"; CStr "high"] = true /\
  @getDomainFromCategories _ _ Sample.collaborators string_category_props AxisX = None /\
  @getDomain _ _ Sample.collaborators string_category_props AxisX =
    @Chart_padDomain _ _ Sample.collaborators
      (@Chart_getDomainFromGroupedData _ _ Sample.collaborators string_category_props AxisX)
      AxisX.
Proof.
  split; [reflexivity|]. split; [reflexivity|].
  destruct (@domain_resolution _ _ Sample.collaborators string_category_props AxisX)
    as (_ & Hstrings & _).
  apply (Hstrings [CStr "low"; CStr "high"]); reflexivity.
Defined.

Lemma band_domain_example :
  @getDomain _ _ Sample.collaborators band_props AxisX = [ofZ 0; ofZ 10] /\
  @getDomain _ _ Sample.collaborators band_props AxisY = [ofZ 1; ofZ 2].
Proof. split; compute_done. Qed.

(** ** Sorting and searching *)

Lemma nlt_Fin (p q : Qc) : nlt (Fin p) (Fin q) = true <-> (p < q)%Qc.
Proof.
  simpl. rewrite Qclt_alt. by destruct (p ?= q)%Qc.
Qed.

Lemma sort_le_Fin (p q : Qc) : sort_le (Fin p) (Fin q) <-> (p ≤ q)%Qc.
Proof.
  unfold sort_le. cbn [sort_leb]. rewrite negb_true_iff, <- not_true_iff_false, nlt_Fin.
  by rewrite Qcle_ngt.
Qed.

#[global] Instance sort_le_total : Total sort_le.
Proof.
  intros [p| | |] [q| | |]; try (by left); try (by right).
  rewrite !sort_le_Fin. apply (total Qcle).
Qed.

#[global] Instance sort_le_trans : Transitive sort_le.
Proof.
  intros [p| | |] [q| | |] [r| | |]; try done.
  rewrite !sort_le_Fin. apply Qcle_trans.
Qed.

#[global] Instance sort_le_antisym : AntiSymm (=) sort_le.
Proof.
  intros [p| | |] [q| | |]; try done.
  rewrite !sort_le_Fin. intros Hpq Hqp. f_equal. by apply Qcle_antisym.
Qed.

Lemma strict_eq_true (n x : num) : x <> NaN -> strict_eq n x = true <-> n = x.
Proof.
  intros Hx. unfold strict_eq.
  destruct n, x; try done; by rewrite bool_decide_eq_true.
Qed.

Lemma elem_of_lodash_uniq (l : list num) (v : num) : v ∈ lodash_uniq l <-> v ∈ l.
Proof.
  induction l as [|w l IH]; [done|].
  cbn [lodash_uniq]. rewrite !elem_of_cons, list_elem_of_filter, IH.
  destruct (decide (v = w)) as [->|Hne]; [by split; [left|left]|].
  split; [intros [?|[_ ?]]; [done|by right] | intros [?|?]; [done|by right]].
Qed.

Lemma NoDup_lodash_uniq (l : list num) : NoDup (lodash_uniq l).
Proof.
  induction l as [|w l IH]; [constructor|].
  cbn [lodash_uniq]. constructor; [|by apply NoDup_filter].
  rewrite list_elem_of_filter. by intros [Hne _].
Qed.

Lemma find_from_unique {A : Type} (p : A -> bool) (l : list A) (x : A) (i k : nat) :
  (forall n, p n = true <-> n = x) ->
  NoDup l -> l !! k = Some x ->
  find_from p l i = Some (i + k)%nat.
Proof.
  intros Hp. revert i k. induction l as [|a l IH]; intros i k Hnd Hk; [done|].
  apply NoDup_cons in Hnd as [Ha Hnd].
  destruct k as [|k]; cbn in Hk.
  - injection Hk as ->. cbn. rewrite (proj2 (Hp x) eq_refl). f_equal. lia.
  - cbn. destruct (p a) eqn:Hpa.
    + apply Hp in Hpa as ->. destruct Ha. by eapply list_elem_of_lookup_2.
    + rewrite (IH (S i) k) by done. f_equal. lia.
Qed.


Lemma filter_all {A : Type} (P : A -> Prop) `{!forall x, Decision (P x)} (l : list A) :
  Forall P l -> filter P l = l.
Proof.
  induction 1 as [|x l Hx _ IH]; [done|].
  by rewrite filter_cons_True, IH.
Qed.

Lemma filter_none {A : Type} (P : A -> Prop) `{!forall x, Decision (P x)} (l : list A) :
  Forall (fun x => ~ P x) l -> filter P l = [].
Proof.
  induction 1 as [|x l Hx _ IH]; [done|].
  by rewrite filter_cons_False.
Qed.

(** In a sorted list without duplicates, the position of an element is the
    number of elements strictly before it. *)
Lemma sorted_position (l : list num) (x : num) (k : nat) :
  StronglySorted sort_le l -> NoDup l -> l !! k = Some x ->
  length (filter (fun v => sort_lt v x) l) = k.
Proof.
  intros Hsorted Hnd Hk.
  pose proof (take_drop_middle l k x Hk) as Hsplit.
  rewrite <- Hsplit in Hsorted, Hnd |- *.
  apply NoDup_app in Hnd as (Hnd1 & Hdisj & Hnd2).
  apply NoDup_cons in Hnd2 as [Hx2 _].
  rewrite filter_app, filter_cons, length_app.
  rewrite decide_False by (by intros [_ Hne]).
  rewrite (filter_all _ (take k l)), (filter_none _ (drop (S k) l)).
  - rewrite length_take. cbn. apply lookup_lt_Some in Hk. lia.
  - apply Forall_forall. intros v Hv [Hle Hne].
    apply StronglySorted_app_1_r in Hsorted.
    apply StronglySorted_inv in Hsorted as [_ Hall].
    rewrite Forall_forall in Hall.
    destruct Hne. apply (anti_symm sort_le); [done|by apply Hall].
  - apply Forall_forall. intros v Hv. split.
    + eapply (StronglySorted_app_1_elem_of sort_le); [done|done|apply list_elem_of_here].
    + intros ->. apply (Hdisj x Hv), list_elem_of_here.
Qed.

Lemma Permutation_filter_length (P : num -> Prop) `{!forall x, Decision (P x)}
    (l1 l2 : list num) :
  l1 ≡ₚ l2 -> length (filter P l1) = length (filter P l2).
Proof. intros Hperm. by rewrite Hperm. Qed.

Section Labels.
Context {Raw Scale : Type}.
Implicit Types (this : VictoryBar Raw Scale).

Lemma sorted_unique_x_sorted this : StronglySorted sort_le (sorted_unique_x this).
Proof. apply (StronglySorted_merge_sort sort_le). Qed.

Lemma sorted_unique_x_NoDup this : NoDup (sorted_unique_x this).
Proof.
  unfold sorted_unique_x, lodash_sortBy.
  rewrite merge_sort_Permutation. apply NoDup_lodash_uniq.
Qed.

Lemma elem_of_sorted_unique_x this (v : num) :
  v ∈ sorted_unique_x this <-> v ∈ all_x this.
Proof.
  unfold sorted_unique_x, lodash_sortBy.
  rewrite merge_sort_Permutation. apply elem_of_lodash_uniq.
Qed.

Lemma getLabelIndex_position this (data : DataPoint) (k : nat) :
  datum_category data = None -> on_x (stringMap this) = None ->
  datum_x data <> NaN ->
  sorted_unique_x this !! k = Some (datum_x data) ->
  getLabelIndex this data = ofNat k.
Proof.
  intros Hcat Hmap Hx Hk. unfold getLabelIndex. rewrite Hcat, Hmap.
  fold (all_x this). fold (sorted_unique_x this). unfold lodash_findIndex.
  rewrite (find_from_unique _ _ (datum_x data) 0 k); [done| |apply sorted_unique_x_NoDup|done].
  intros n. by apply strict_eq_true.
Qed.

(** C6: the label index of a point is its category when it has one;
    else its x value minus one when the x axis has a string map; else the
    position of its x value in the sorted set of the unique x values of
    all datasets, which is the number of unique x values before it.  That
    set is sorted, has no duplicates, and holds exactly the x values of
    the datasets. *)
Theorem label_index_resolution this (data : DataPoint) :
  (forall c, datum_category data = Some c -> getLabelIndex this data = c) /\
  (datum_category data = None -> is_Some (on_x (stringMap this)) ->
   getLabelIndex this data = nsub (datum_x data) (ofZ 1)) /\
  (datum_category data = None -> on_x (stringMap this) = None ->
   getLabelIndex this data =
     lodash_findIndex (sorted_unique_x this) (fun n => strict_eq n (datum_x data)) /\
   (datum_x data <> NaN -> datum_x data ∈ all_x this ->
    exists k,
      sorted_unique_x this !! k = Some (datum_x data) /\
      getLabelIndex this data = ofNat k /\
      k = length (filter (fun v => sort_lt v (datum_x data)) (lodash_uniq (all_x this))))) /\
  (StronglySorted sort_le (sorted_unique_x this) /\
   NoDup (sorted_unique_x this) /\
   forall v, v ∈ sorted_unique_x this <-> v ∈ all_x this).
Proof.
  split; [|split; [|split]].
  - intros c Hcat. unfold getLabelIndex. by rewrite Hcat.
  - intros Hcat [m Hmap]. unfold getLabelIndex. by rewrite Hcat, Hmap.
  - intros Hcat Hmap. split.
    + unfold getLabelIndex. by rewrite Hcat, Hmap.
    + intros Hx Hin. apply elem_of_sorted_unique_x in Hin.
      apply list_elem_of_lookup in Hin as [k Hk]. exists k.
      split; [done|]. split; [by apply getLabelIndex_position|].
      rewrite <- (sorted_position (sorted_unique_x this) (datum_x data) k);
        [|apply sorted_unique_x_sorted|apply sorted_unique_x_NoDup|done].
      apply Permutation_filter_length.
      apply (merge_sort_Permutation sort_le).
  - split; [apply sorted_unique_x_sorted|].
    split; [apply sorted_unique_x_NoDup|apply elem_of_sorted_unique_x].
Qed.
End Labels.

(** Witness of C6: a point of category [1] under the categories
    [[[0, 5], [5, 10]]], and the point [{x: 2, y: 5}] of [scattered_chart]. *)
Lemma label_index_resolution_witness :
  (datum_category banded_point = Some (ofZ 1) /\
   getLabelIndex (Sample.calculated band_props) banded_point = ofZ 1) /\
  (datum_category (point 2 5) = None /\
   on_x (stringMap scattered_chart) = None /\
   datum_x (point 2 5) <> NaN /\
   datum_x (point 2 5) ∈ all_x scattered_chart /\
   exists k,
     sorted_unique_x scattered_chart !! k = Some (datum_x (point 2 5)) /\
     getLabelIndex scattered_chart (point 2 5) = ofNat k /\
     k = length (filter (fun v => sort_lt v (datum_x (point 2 5)))
                        (lodash_uniq (all_x scattered_chart)))).
Proof.
  split.
  - split; [reflexivity|].
    destruct (label_index_resolution (Sample.calculated band_props) banded_point)
      as (Hcategory & _).
    apply Hcategory. reflexivity.
  - assert (datum_x (point 2 5) <> NaN) as Hx by discriminate.
    assert (datum_x (point 2 5) ∈ all_x scattered_chart) as Hin by compute_done.
    split; [reflexivity|]. split; [reflexivity|]. split; [exact Hx|]. split; [exact Hin|].
    destruct (label_index_resolution scattered_chart (point 2 5))
      as (_ & _ & Hposition & _).
    destruct (Hposition eq_refl eq_refl) as [_ Hfound].
    exact (Hfound Hx Hin).
Defined.

Lemma scattered_label_indices :
  sorted_unique_x scattered_chart = [ofZ 1; ofZ 2; ofZ 3] /\
  getLabelIndex scattered_chart (point 3 1) = ofZ 2 /\
  getLabelIndex scattered_chart (point 1 2) = ofZ 0 /\
  getLabelIndex scattered_chart (point 2 5) = ofZ 1 /\
  getLabelIndex scattered_chart (point 9 9) = ofZ (-1).
Proof. repeat split; compute_done. Qed.

(** ** Label placement *)

Lemma Qc_half_as_Q (n : Z) : (this (Qc_of_Z n / Qc_of_Z 2)%Qc == n # 2)%Q.
Proof.
  unfold Qcdiv, Qcmult, Qcinv, Q2Qc. cbn [this].
  rewrite !Qred_correct. unfold Qeq. cbn. lia.
Qed.

Lemma floor_half (n : nat) :
  Math_floor (ndiv (ofNat n) (ofZ 2)) = ofNat (n / 2).
Proof.
  unfold ofNat at 1. unfold ofZ at 1. rewrite ndiv_2. cbn [Math_floor].
  unfold ofNat. f_equal. rewrite Qc_half_as_Q. unfold Qfloor.
  rewrite Nat2Z.inj_div. reflexivity.
Qed.

Lemma strict_eq_ofNat (n m : nat) : strict_eq (ofNat n) (ofNat m) = bool_decide (n = m).
Proof.
  unfold ofNat, ofZ. cbn [strict_eq]. apply bool_decide_ext. split.
  - intros H. apply Nat2Z.inj, Z2Qc_inj. congruence.
  - by intros ->.
Qed.

(** A successful [mapM] over an indexed map, read at one index. *)
Lemma mapM_imap_lookup {A B : Type} (f : nat -> A -> option B) (l : list A)
    (k : list B) (i : nat) (y : B) :
  mapM id (imap f l) = Some k -> k !! i = Some y ->
  exists x, l !! i = Some x /\ f i x = Some y.
Proof.
  intros HmapM Hy. apply mapM_Some_1 in HmapM.
  destruct (Forall2_lookup_r _ _ _ _ _ HmapM Hy) as (o & Ho & Hoy).
  rewrite list_lookup_imap in Ho.
  destruct (l !! i) as [x|]; [|done]. exists x. split; [done|].
  cbn in Ho. injection Ho as <-. exact Hoy.
Qed.

Lemma mapM_imap_length {A B : Type} (f : nat -> A -> option B) (l : list A)
    (k : list B) :
  mapM id (imap f l) = Some k -> length k = length l.
Proof.
  intros HmapM. apply mapM_Some_1, Forall2_length in HmapM.
  by rewrite <- HmapM, length_imap.
Qed.

Lemma mapM_imap_is_Some {A B : Type} (f : nat -> A -> option B) (l : list A) :
  is_Some (mapM id (imap f l)) <-> forall i x, l !! i = Some x -> is_Some (f i x).
Proof.
  rewrite mapM_is_Some, Forall_lookup. split.
  - intros Hall i x Hx. apply (Hall i (f i x)).
    by rewrite list_lookup_imap, Hx.
  - intros Hall i o Ho. rewrite list_lookup_imap in Ho.
    destruct (l !! i) as [x|] eqn:Hx; [|done].
    cbn in Ho. injection Ho as <-. by apply Hall.
Qed.

Section LabelPlacement.
Context {Raw Scale : Type} `{!Collaborators Raw Scale}.
Implicit Types (this : VictoryBar Raw Scale).

Lemma renderBars_unfold this (dataset : Dataset) (index : nat) :
  renderBars this dataset index =
    mapM id (imap (renderBar this index (plotGroupLabel this index)) (ds_data dataset)).
Proof. reflexivity. Qed.

(** Within the datasets, [plotGroupLabel] singles out the label carrier. *)
Lemma plotGroupLabel_carrier this (index : nat) :
  (index < length (datasets this))%nat ->
  plotGroupLabel this index = bool_decide (index = label_carrier this).
Proof.
  intros Hlt. unfold plotGroupLabel, label_carrier.
  rewrite floor_half, strict_eq_ofNat.
  destruct (p_stacked (props this)); cbn [andb orb negb].
  - rewrite orb_false_r.
    destruct (Nat.eqb_spec (length (datasets this)) (index + 1)) as [Heq|Hne].
    + symmetry. apply bool_decide_eq_true. lia.
    + symmetry. apply bool_decide_eq_false. lia.
  - apply bool_decide_ext. split; by intros ->.
Qed.


(** Every rendered bar comes from the callback of [renderBars] on the
    data point at its indices. *)
Lemma renderData_lookup this (groups : list (list RenderedBar)) (i j : nat)
    (group : list RenderedBar) (bar : RenderedBar) :
  renderData this = Some groups ->
  groups !! i = Some group -> group !! j = Some bar ->
  exists dataset data,
    datasets this !! i = Some dataset /\
    ds_data dataset !! j = Some data /\
    renderBar this i (plotGroupLabel this i) j data = Some bar.
Proof.
  intros Hrender Hgroup Hbar. unfold renderData in Hrender.
  destruct (mapM_imap_lookup _ _ _ _ _ Hrender Hgroup) as (dataset & Hds & Hbars).
  rewrite renderBars_unfold in Hbars.
  destruct (mapM_imap_lookup _ _ _ _ _ Hbars Hbar) as (data & Hdata & Hrb).
  by exists dataset, data.
Qed.

Lemma renderBar_label this (index barIndex : nat) (plot : bool) (data : DataPoint)
    (bar : RenderedBar) :
  renderBar this index plot barIndex data = Some bar ->
  bar_data bar = data /\
  bar_label bar =
    if plot && labels_configured this
    then Some {| labelText :=
                   match p_labels (props this) with
                   | Some labels =>
                       js_or (js_get labels (getLabelIndex this data))
                             (js_get labels (ofZ 0))
                   | None => JStr ""
                   end;
                 labelComponent :=
                   match p_labelComponents (props this) with
                   | Some labelComponents =>
                       js_or (js_get labelComponents (ofNat index))
                             (js_get labelComponents (ofZ 0))
                   | None => JUndefined
                   end |}
    else None.
Proof.
  unfold renderBar, labels_configured.
  destruct (getBarPosition this data index barIndex) as [position|]; [|done].
  cbn [mbind option_bind].
  destruct (plot && _); intros [= <-]; done.
Qed.


Lemma adjustX_is_Some this (data : DataPoint) (index : nat) (options : option Options) :
  is_Some (adjustX this data index options) <-> has_band this data.
Proof.
  unfold adjustX, has_band. destruct (datum_category data) as [c|]; [|done].
  destruct (p_categories (props this)) as [cats|]; cbn; [|done].
  destruct (spread (js_index cats c)) as [rangeBand|]; cbn; [|done].
  split; intros _; by eexists.
Qed.

Lemma renderBar_is_Some this (index barIndex : nat) (plot : bool) (data : DataPoint) :
  is_Some (renderBar this index plot barIndex data) <-> has_band this data.
Proof.
  rewrite <- (adjustX_is_Some this data index (Some {| stacked := p_stacked (props this) |})).
  unfold renderBar, getBarPosition.
  destruct (adjustX this data index _) as [x|]; cbn; [|done].
  destruct (_ && _); split; intros _; by eexists.
Qed.

(** [renderData] returns the bars exactly when every point can be placed;
    otherwise [adjustX] throws on the first point that cannot. *)
Lemma renderData_is_Some this :
  is_Some (renderData this) <->
  Forall (fun dataset => Forall (has_band this) (ds_data dataset)) (datasets this).
Proof.
  unfold renderData. rewrite mapM_imap_is_Some. rewrite Forall_lookup.
  apply forall_proper; intros i. apply forall_proper; intros dataset.
  apply forall_proper; intros Hds.
  rewrite renderBars_unfold, mapM_imap_is_Some, Forall_lookup.
  apply forall_proper; intros j. apply forall_proper; intros data.
  apply forall_proper; intros Hdata. apply renderBar_is_Some.
Qed.

(** Without categories on the data points nothing throws. *)
Lemma renderData_total this :
  Forall (fun dataset => Forall (fun data => datum_category data = None) (ds_data dataset))
         (datasets this) ->
  is_Some (renderData this).
Proof.
  intros Hall. apply renderData_is_Some.
  eapply Forall_impl; [exact Hall|]. intros dataset Hpoints.
  eapply Forall_impl; [exact Hpoints|]. intros data Hcat.
  unfold has_band. by rewrite Hcat.
Qed.

(** C9: with a labels list configured, the text of a label is the entry
    of the list at the label index of the bar's point, or, when that
    entry is falsy, the first entry of the list; an index without entry,
    [undefined], [null], the empty string and [0] are all falsy. *)
Theorem label_text_fallback this (groups : list (list RenderedBar))
    (labels : list jsval) (i j : nat) (bar : RenderedBar) (label : BarLabel) :
  p_labels (props this) = Some labels ->
  renderData this = Some groups ->
  groups !! i ≫= (.!! j) = Some bar ->
  bar_label bar = Some label ->
  labelText label =
    js_or (js_get labels (getLabelIndex this (bar_data bar))) (js_get labels (ofZ 0)) /\
  (truthy (js_get labels (getLabelIndex this (bar_data bar))) = false ->
   labelText label = js_get labels (ofZ 0)) /\
  (js_index labels (getLabelIndex this (bar_data bar)) = None ->
   labelText label = js_get labels (ofZ 0)) /\
  (truthy JUndefined = false /\ truthy JNull = false /\
   truthy (JStr "") = false /\ truthy (JNum (ofZ 0)) = false).
Proof.
  intros Hlabels Hrender Hlookup Hlabel.
  apply bind_Some in Hlookup as (group & Hgroup & Hbar).
  destruct (renderData_lookup _ _ _ _ _ _ Hrender Hgroup Hbar)
    as (dataset & data & Hds & Hdata & Hrb).
  apply renderBar_label in Hrb as [Hd Hl]. rewrite Hd.
  rewrite Hl in Hlabel. destruct (_ && _); [|done].
  injection Hlabel as <-. cbn [labelText]. rewrite Hlabels.
  split; [done|]. split; [|split; [|done]].
  - intros Hfalsy. unfold js_or. by rewrite Hfalsy.
  - intros Hmissing. unfold js_or, js_get at 1. by rewrite Hmissing.
Qed.
End LabelPlacement.


Lemma labelled_groups_labels :
  map (map (fun bar => labelText <$> bar_label bar)) (labelled_groups false) =
    [[None; None]; [Some (JStr "first"); Some (JStr "second")]; [None; None]] /\
  map (map (fun bar => labelText <$> bar_label bar)) (labelled_groups true) =
    [[None; None]; [None; None]; [Some (JStr "first"); Some (JStr "second")]].
Proof. split; compute_done. Qed.

(** Witness of C9: the second bar of [sparse_label_chart], where the
    labels entry is the empty string. *)
Lemma label_text_fallback_witness :
  p_labels (props sparse_label_chart) =
    Some [JStr "first"; JStr ""; JNum (ofZ 0); JNull] /\
  @renderData _ _ Sample.collaborators sparse_label_chart = Some sparse_label_groups /\
  sparse_label_groups !! 0%nat ≫= (.!! 1%nat) = Some sparse_second_bar /\
  truthy (js_get [JStr "first"; JStr ""; JNum (ofZ 0); JNull]
            (getLabelIndex sparse_label_chart (bar_data sparse_second_bar))) = false /\
  labelText {| labelText := JStr "first"; labelComponent := JUndefined |} =
    js_get [JStr "first"; JStr ""; JNum (ofZ 0); JNull] (ofZ 0).
Proof.
  assert (sparse_label_groups !! 0%nat ≫= (.!! 1%nat) = Some sparse_second_bar)
    as Hbar by compute_done.
  assert (truthy (js_get [JStr "first"; JStr ""; JNum (ofZ 0); JNull]
            (getLabelIndex sparse_label_chart (bar_data sparse_second_bar))) = false)
    as Hfalsy by (vm_compute; reflexivity).
  split; [reflexivity|]. split; [vm_compute; reflexivity|].
  split; [exact Hbar|]. split; [exact Hfalsy|].
  destruct (@label_text_fallback _ _ Sample.collaborators sparse_label_chart
              sparse_label_groups [JStr "first"; JStr ""; JNum (ofZ 0); JNull]
              0%nat 1%nat sparse_second_bar
              {| labelText := JStr "first"; labelComponent := JUndefined |})
    as (_ & Hfallback & _);
    [reflexivity | vm_compute; reflexivity | exact Hbar | reflexivity |].
  exact (Hfallback Hfalsy).
Defined.

Lemma sparse_label_texts :
  map (map (fun bar => labelText <$> bar_label bar)) sparse_label_groups =
    [[Some (JStr "first"); Some (JStr "first"); Some (JStr "first");
      Some (JStr "first"); Some (JStr "first")]].
Proof. compute_done. Qed.

(** ** The render pass *)

Section RenderPass.
Context {Raw Scale : Type} `{!Collaborators Raw Scale}.
Implicit Types (this : VictoryBar Raw Scale) (p : Props Raw).

(** [getCalculatedValues] leaves [this.props] alone. *)
Lemma getCalculatedValues_props this p : props (getCalculatedValues this p) = props this.
Proof. reflexivity. Qed.

(** It assigns every other field from the props it is given: nothing of
    what an earlier pass calculated survives. *)
Lemma getCalculatedValues_overwrites this1 this2 p :
  props this1 = props this2 ->
  getCalculatedValues this1 p = getCalculatedValues this2 p.
Proof. intros Hprops. unfold getCalculatedValues. cbn. by rewrite Hprops. Qed.

Lemma render_again this : render (fst (render this)) = render this.
Proof.
  unfold render. destruct (p_animate (props this)) as [animate|] eqn:Hanimate.
  - cbn [fst]. by rewrite Hanimate.
  - cbn [fst]. rewrite getCalculatedValues_props, Hanimate.
    by rewrite (getCalculatedValues_overwrites _ this (props this)).
Qed.

(** C8: what [render] returns is determined by the props: two instances
    with the same props return the same element (the same positions and
    the same labels for every bar), whatever they had calculated before,
    and leave the same instance when the chart is not animated; a second
    [render] of the same instance repeats the first. *)
Theorem render_deterministic this1 this2 :
  props this1 = props this2 ->
  snd (render this1) = snd (render this2) /\
  (p_animate (props this1) = None -> fst (render this1) = fst (render this2)) /\
  render (fst (render this1)) = render this1.
Proof.
  intros Hprops. split; [|split; [|apply render_again]].
  - unfold render. rewrite <- Hprops.
    destruct (p_animate (props this1)); [done|]. cbn [snd].
    by rewrite (getCalculatedValues_overwrites this1 this2).
  - intros Hanimate. unfold render. rewrite <- Hprops, Hanimate. cbn [fst].
    by apply getCalculatedValues_overwrites.
Qed.
End RenderPass.

(** Witness of C8: a fresh instance and one with stale calculated values,
    both with the props of [labelled_chart false]. *)
Lemma render_deterministic_witness :
  props (Sample.mount (labelled_props false)) = props stale_chart /\
  snd (@render _ _ Sample.collaborators (Sample.mount (labelled_props false))) =
    snd (@render _ _ Sample.collaborators stale_chart) /\
  p_animate (props (Sample.mount (labelled_props false))) = None /\
  fst (@render _ _ Sample.collaborators (Sample.mount (labelled_props false))) =
    fst (@render _ _ Sample.collaborators stale_chart) /\
  @render _ _ Sample.collaborators
      (fst (@render _ _ Sample.collaborators (Sample.mount (labelled_props false)))) =
    @render _ _ Sample.collaborators (Sample.mount (labelled_props false)).
Proof.
  destruct (@render_deterministic _ _ Sample.collaborators
              (Sample.mount (labelled_props false)) stale_chart eq_refl)
    as (Helement & Hinstance & Hagain).
  split; [reflexivity|]. split; [exact Helement|]. split; [reflexivity|].
  split; [exact (Hinstance eq_refl)|exact Hagain].
Defined.

Lemma render_labelled_chart :
  snd (@render _ _ Sample.collaborators stale_chart) =
    Some (Svg (list_to_map [("height", JNum (ofZ 300)); ("width", JNum (ofZ 450))])
              (labelled_groups false)).
Proof. vm_compute. reflexivity. Qed.

(** * Further properties *)

(** ** Order on numbers *)

Lemma nlt_Fin_iff (p q : Qc) : nlt (Fin p) (Fin q) = true <-> (this p < this q)%Q.
Proof. rewrite nlt_Fin. reflexivity. Qed.

Lemma nlt_Fin_false (p q : Qc) : nlt (Fin p) (Fin q) = false <-> (this q <= this p)%Q.
Proof.
  rewrite <- not_true_iff_false, nlt_Fin_iff. split; [apply Qnot_lt_le|apply Qle_not_lt].
Qed.

Lemma nle_Fin (p q : Qc) : nle (Fin p) (Fin q) <-> (this p <= this q)%Q.
Proof. unfold nle. cbn [nge]. by rewrite negb_true_iff, nlt_Fin_false. Qed.

Lemma Fin_eq (p q : Qc) : (this p == this q)%Q -> Fin p = Fin q.
Proof. intros Heq. f_equal. by apply Qc_is_canon. Qed.

(** Case analysis on the order of two finite numbers. *)
Lemma Qccompare_cases (p q : Qc) :
  ((p ?= q)%Qc = Lt /\ (this p < this q)%Q) \/
  ((p ?= q)%Qc = Eq /\ (this p == this q)%Q) \/
  ((p ?= q)%Qc = Gt /\ (this q < this p)%Q).
Proof.
  unfold Qccompare. destruct (Qcompare_spec (this p) (this q)) as [Heq|Hlt|Hgt].
  - right. left. done.
  - left. done.
  - right. right. done.
Qed.

Ltac fin_order :=
  cbn;
  repeat match goal with
  | |- context [(?p ?= ?q)%Qc] =>
      let H := fresh "Hcmp" in let Ho := fresh "Hord" in
      destruct (Qccompare_cases p q) as [[H Ho] | [[H Ho] | [H Ho]]];
      rewrite !H; cbn
  end;
  try reflexivity; try (apply Fin_eq; lra); try lra.

Lemma nmin_comm (a b : num) : nmin a b = nmin b a.
Proof. destruct a as [p| | |], b as [q| | |]; fin_order. Qed.

Lemma nmax_comm (a b : num) : nmax a b = nmax b a.
Proof. destruct a as [p| | |], b as [q| | |]; fin_order. Qed.

Lemma nmin_assoc (a b c : num) : nmin a (nmin b c) = nmin (nmin a b) c.
Proof. destruct a as [p| | |], b as [q| | |], c as [r| | |]; fin_order. Qed.

Lemma nmax_assoc (a b c : num) : nmax a (nmax b c) = nmax (nmax a b) c.
Proof. destruct a as [p| | |], b as [q| | |], c as [r| | |]; fin_order. Qed.

Lemma Math_min_Permutation (l1 l2 : list num) : l1 ≡ₚ l2 -> Math_min l1 = Math_min l2.
Proof.
  unfold Math_min. induction 1 as [|v l1 l2 _ IH|v w l|l1 l2 l3 _ IH1 _ IH2]; cbn.
  - done.
  - by rewrite IH.
  - by rewrite !nmin_assoc, (nmin_comm w v).
  - by rewrite IH1.
Qed.

Lemma Math_max_Permutation (l1 l2 : list num) : l1 ≡ₚ l2 -> Math_max l1 = Math_max l2.
Proof.
  unfold Math_max. induction 1 as [|v l1 l2 _ IH|v w l|l1 l2 l3 _ IH1 _ IH2]; cbn.
  - done.
  - by rewrite IH.
  - by rewrite !nmax_assoc, (nmax_comm w v).
  - by rewrite IH1.
Qed.

Lemma nle_refl_Fin (q : Qc) : nle (Fin q) (Fin q).
Proof. apply nle_Fin. lra. Qed.

Lemma nle_trans (a b c : num) : nle a b -> nle b c -> nle a c.
Proof.
  unfold nle. destruct a as [p| | |], b as [q| | |], c as [r| | |]; try done.
  change (nle (Fin p) (Fin q) -> nle (Fin q) (Fin r) -> nle (Fin p) (Fin r)).
  rewrite !nle_Fin. lra.
Qed.

Lemma forallb_is_finite_cons (v : num) (l : list num) :
  forallb is_finite (v :: l) = true ->
  (exists q, v = Fin q) /\ forallb is_finite l = true.
Proof.
  cbn. intros [Hv Hl]%andb_true_iff. split; [|done].
  destruct v as [q| | |]; try done. by exists q.
Qed.

(** [Math.min] of finite numbers is one of them, and below all of them;
    likewise [Math.max], above. *)
Lemma Math_min_finite (l : list num) :
  l <> [] -> forallb is_finite l = true ->
  exists m, Math_min l = Fin m /\ Fin m ∈ l /\ forall v, v ∈ l -> nle (Fin m) v.
Proof.
  induction l as [|v l IH]; [done|]. intros _ Hfin.
  apply forallb_is_finite_cons in Hfin as [[q ->] Hfin].
  destruct l as [|w l].
  - exists q. split; [done|]. split; [apply list_elem_of_here|].
    intros v ->%list_elem_of_singleton. apply nle_refl_Fin.
  - destruct (IH ltac:(done) Hfin) as (m & Hmin & Hin & Hlow).
    change (Math_min (Fin q :: w :: l)) with (nmin (Fin q) (Math_min (w :: l))).
    rewrite Hmin. cbn [nmin].
    destruct (nlt (Fin m) (Fin q)) eqn:Hlt.
    + exists m. split; [done|]. split; [by apply list_elem_of_further|].
      intros v [->|Hv]%elem_of_cons; [|by apply Hlow].
      apply nlt_Fin_iff in Hlt. apply nle_Fin. lra.
    + exists q. split; [done|]. split; [apply list_elem_of_here|].
      apply nlt_Fin_false in Hlt.
      intros v [->|Hv]%elem_of_cons; [apply nle_refl_Fin|].
      apply (nle_trans _ (Fin m)); [by apply nle_Fin|by apply Hlow].
Qed.

Lemma Math_max_finite (l : list num) :
  l <> [] -> forallb is_finite l = true ->
  exists m, Math_max l = Fin m /\ Fin m ∈ l /\ forall v, v ∈ l -> nle v (Fin m).
Proof.
  induction l as [|v l IH]; [done|]. intros _ Hfin.
  apply forallb_is_finite_cons in Hfin as [[q ->] Hfin].
  destruct l as [|w l].
  - exists q. split; [done|]. split; [apply list_elem_of_here|].
    intros v ->%list_elem_of_singleton. apply nle_refl_Fin.
  - destruct (IH ltac:(done) Hfin) as (m & Hmax & Hin & Hhigh).
    change (Math_max (Fin q :: w :: l)) with (nmax (Fin q) (Math_max (w :: l))).
    rewrite Hmax. cbn [nmax].
    destruct (nlt (Fin q) (Fin m)) eqn:Hlt.
    + exists m. split; [done|]. split; [by apply list_elem_of_further|].
      intros v [->|Hv]%elem_of_cons; [|by apply Hhigh].
      apply nlt_Fin_iff in Hlt. apply nle_Fin. lra.
    + exists q. split; [done|]. split; [apply list_elem_of_here|].
      apply nlt_Fin_false in Hlt.
      intros v [->|Hv]%elem_of_cons; [apply nle_refl_Fin|].
      apply (nle_trans _ (Fin m)); [by apply Hhigh|by apply nle_Fin].
Qed.

(** ** Pixels as domain values *)


Lemma Qcsgn_zero : Qcsgn 0%Qc = Eq.
Proof. reflexivity. Qed.

Lemma ndiv_zero_not_finite (a : num) : is_finite (ndiv a (Fin 0%Qc)) = false.
Proof. destruct a as [p| | |]; try done. cbn. by destruct (Qcsgn p). Qed.

Lemma nmul_not_finite_l (a b : num) : is_finite a = false -> is_finite (nmul a b) = false.
Proof.
  destruct a as [p| | |], b as [q| | |]; try done; intros _; cbn;
    by destruct (Qcsgn q).
Qed.

Lemma nmul_not_finite_r (a b : num) : is_finite b = false -> is_finite (nmul a b) = false.
Proof.
  destruct a as [p| | |], b as [q| | |]; try done; intros _; cbn;
    by destruct (Qcsgn p).
Qed.

Lemma nadd_not_finite_l (a b : num) : is_finite a = false -> is_finite (nadd a b) = false.
Proof. by destruct a as [p| | |], b as [q| | |]. Qed.

Lemma nadd_not_finite_r (a b : num) : is_finite b = false -> is_finite (nadd a b) = false.
Proof. by destruct a as [p| | |], b as [q| | |]. Qed.

Lemma nsub_Fin (p q : Qc) : nsub (Fin p) (Fin q) = Fin (p + - q)%Qc.
Proof. reflexivity. Qed.

Lemma nle_0_Fin (q : Qc) : nle (ofZ 0) (Fin q) <-> (0 ≤ q)%Qc.
Proof. unfold ofZ. rewrite nle_Fin. reflexivity. Qed.

Section Pixels.
Context {Raw Scale : Type} `{!Collaborators Raw Scale}.
Implicit Types (this : VictoryBar Raw Scale) (a : axis).

(** X1: [pixelsToValue] reads only the extent of the domain and of the
    range of the axis: listing their bounds in another order (the y range
    runs from the bottom pixel up) changes nothing. *)
Theorem pixelsToValue_orientation this this' (pixels : jsval) a :
  at_axis (domain this') a ≡ₚ at_axis (domain this) a ->
  at_axis (range this') a ≡ₚ at_axis (range this) a ->
  pixelsToValue this' pixels a = pixelsToValue this pixels a.
Proof.
  intros Hdomain Hrange. unfold pixelsToValue.
  by rewrite (Math_max_Permutation _ _ Hdomain), (Math_min_Permutation _ _ Hdomain),
    (Math_max_Permutation _ _ Hrange), (Math_min_Permutation _ _ Hrange).
Qed.


(** X3: when the x range is a single pixel position (its maximum equals
    its minimum), no pixel count converts to a finite domain value, and the
    x coordinate of every grouped (not stacked) bar is [NaN] or an
    infinity. *)
Theorem zero_range_not_finite this (data : DataPoint) (index : nat) (pixels : jsval) :
  is_finite (Math_min (on_x (range this))) = true ->
  Math_max (on_x (range this)) = Math_min (on_x (range this)) ->
  is_finite (pixelsToValue this pixels AxisX) = false /\
  (datum_category data = None ->
   exists v, adjustX this data index (Some {| stacked := false |}) = Some v /\
             is_finite v = false).
Proof.
  intros Hfin Heq.
  assert (forall px, is_finite (pixelsToValue this px AxisX) = false) as Hpx.
  { intros px. unfold pixelsToValue. cbn [at_axis]. rewrite Heq.
    destruct (Math_min (on_x (range this))) as [r| | |]; try done.
    rewrite nsub_Fin, Qcplus_opp_r.
    apply nmul_not_finite_l, ndiv_zero_not_finite. }
  split; [apply Hpx|]. intros Hcat. rewrite adjustX_grouped by done.
  eexists. split; [done|].
  apply nadd_not_finite_r, nmul_not_finite_r. unfold totalWidth.
  apply nadd_not_finite_l, Hpx.
Qed.



(** X5: with an odd number of datasets the group is centred on the
    nominal [x]: the bars of the datasets [index] and [count - 1 - index]
    are offset by opposite multiples of [totalWidth]. *)
Theorem odd_group_symmetric this (data : DataPoint) (index : nat) :
  datum_category data = None ->
  (length (datasets this) mod 2 = 1)%nat ->
  (index < length (datasets this))%nat ->
  let k := Z.of_nat index - Z.of_nat (length (datasets this) / 2) in
  adjustX this data index (Some {| stacked := false |}) =
    Some (nadd (datum_x data) (nmul (ofZ k) (totalWidth this))) /\
  adjustX this data (length (datasets this) - 1 - index) (Some {| stacked := false |}) =
    Some (nadd (datum_x data) (nmul (ofZ (- k)) (totalWidth this))).
Proof.
  intros Hcat Hodd Hlt k. rewrite !adjustX_grouped by done.
  unfold ofNat. rewrite !nsub_ofZ. split; [done|]. do 4 f_equal.
  pose proof (Nat.div_mod_eq (length (datasets this)) 2). unfold k. lia.
Qed.
End Pixels.

(** ** The labelled bar and the bands *)

Lemma nadd_zero_width (x : num) (w : Qc) : nadd x (nmul (ofZ 0) (Fin w)) = x.
Proof.
  unfold ofZ. cbn [nmul]. rewrite Z2Qc_inj_0, Qcmult_0_l.
  destruct x as [q| | |]; try done. cbn. by rewrite Qcplus_0_r.
Qed.




Section Bands.
Context {Raw Scale : Type} `{!Collaborators Raw Scale}.
Implicit Types (this : VictoryBar Raw Scale) (p : Props Raw).

(** X6: the bar of the dataset that carries the group's label is drawn at
    the scaled nominal [x] of its point: always when stacked, and when
    grouped as soon as [totalWidth] is finite. *)
Theorem labelled_bar_on_x this (data : DataPoint) (barIndex : nat) :
  datum_category data = None ->
  p_stacked (props this) = true \/ is_finite (totalWidth this) = true ->
  independent <$> getBarPosition this data (label_carrier this) barIndex =
    Some (scale_call (on_x (scale this)) (datum_x data)).
Proof.
  intros Hcat Hmode. unfold getBarPosition, label_carrier.
  destruct (p_stacked (props this)) eqn:Hst.
  - by rewrite adjustX_stacked.
  - destruct Hmode as [|Hfin]; [done|].
    rewrite adjustX_grouped by done.
    destruct (totalWidth this) as [w| | |]; try done.
    unfold ofNat. by rewrite nsub_ofZ, Z.sub_diag, nadd_zero_width.
Qed.

(** The category domain of finite categories encloses them. *)
Lemma getDomainFromCategories_finite p (cats : list category) :
  p_categories p = Some cats ->
  Collection_containsStrings cats = false ->
  flatten_categories cats <> [] ->
  forallb is_finite (flatten_categories cats) = true ->
  exists lo hi,
    getDomainFromCategories p AxisX = Some [Fin lo; Fin hi] /\
    forall v, v ∈ flatten_categories cats -> nle (Fin lo) v /\ nle v (Fin hi).
Proof.
  intros Hcats Hstr Hne Hfin. unfold getDomainFromCategories. rewrite Hcats, Hstr.
  rewrite bool_decide_eq_false_2 by (by intros []). cbn [orb].
  destruct (Math_min_finite _ Hne Hfin) as (lo & -> & _ & Hlo).
  destruct (Math_max_finite _ Hne Hfin) as (hi & -> & _ & Hhi).
  exists lo, hi. split; [done|]. intros v Hv. split; [by apply Hlo|by apply Hhi].
Qed.

(** X7: for categories without strings on the x axis, the category domain
    is [[Infinity, -Infinity]] when the categories flatten to nothing;
    when they flatten to finite numbers it is a pair of finite bounds that
    encloses every one of them. *)
Theorem category_domain_bounds p (cats : list category) :
  p_categories p = Some cats ->
  Collection_containsStrings cats = false ->
  (flatten_categories cats = [] ->
   getDomainFromCategories p AxisX = Some [PInf; NInf]) /\
  (flatten_categories cats <> [] ->
   forallb is_finite (flatten_categories cats) = true ->
   exists lo hi,
     getDomainFromCategories p AxisX = Some [Fin lo; Fin hi] /\
     forall v, v ∈ flatten_categories cats -> nle (Fin lo) v /\ nle v (Fin hi)).
Proof.
  intros Hcats Hstr. split.
  - intros Hnil. unfold getDomainFromCategories. rewrite Hcats, Hstr, Hnil.
    by rewrite bool_decide_eq_false_2 by (by intros []).
  - by apply getDomainFromCategories_finite.
Qed.

End Bands.

(** ** More on stacking *)

Lemma nge_0_Fin (q : Qc) : nge (Fin q) (ofZ 0) = true <-> (0 ≤ q)%Qc.
Proof. apply nle_0_Fin. Qed.

Lemma nadd_nonnegative (a b : num) :
  nge a (ofZ 0) = true -> nge b (ofZ 0) = true -> nge (nadd a b) (ofZ 0) = true.
Proof.
  destruct a as [p| | |], b as [q| | |]; try done.
  cbn [nadd]. rewrite !nge_0_Fin. apply Qcplus_nonneg_nonneg.
Qed.

Lemma nadd_nonpositive (a b : num) :
  nge (ofZ 0) a = true -> nlt b (ofZ 0) = true -> nge (ofZ 0) (nadd a b) = true.
Proof.
  destruct a as [p| | |], b as [q| | |]; try done.
  cbn [nadd]. intros Hp Hq.
  change (nle (Fin p) (ofZ 0)) in Hp. unfold ofZ in Hp, Hq. apply nle_Fin in Hp.
  apply nlt_Fin_iff in Hq.
  change (nle (Fin (p + q)) (ofZ 0)). unfold ofZ. apply nle_Fin.
  change (p + q ≤ Qc_of_Z 0)%Qc. rewrite Z2Qc_inj_0.
  apply Qcplus_nonpos_nonpos.
  - rewrite <- Z2Qc_inj_0. exact Hp.
  - apply Qclt_le_weak. rewrite <- Z2Qc_inj_0. exact Hq.
Qed.

Lemma sum_nonnegative (l : list num) (acc : num) :
  nge acc (ofZ 0) = true ->
  nge (fold_left nadd (filter (fun v => nge v (ofZ 0) = true) l) acc) (ofZ 0) = true.
Proof.
  revert acc. induction l as [|v l IH]; intros acc Hacc; [done|].
  rewrite filter_cons. case_decide as Hv; [|by apply IH].
  cbn [fold_left]. apply IH. by apply nadd_nonnegative.
Qed.

Lemma sum_nonpositive (l : list num) (acc : num) :
  nge (ofZ 0) acc = true ->
  nge (ofZ 0) (fold_left nadd (filter (fun v => nlt v (ofZ 0) = true) l) acc) = true.
Proof.
  revert acc. induction l as [|v l IH]; intros acc Hacc; [done|].
  rewrite filter_cons. case_decide as Hv; [|by apply IH].
  cbn [fold_left]. apply IH. by apply nadd_nonpositive.
Qed.

(** Two values that pass [sameSign] pass it with the same values. *)
Lemma sameSign_class (y y' v : num) :
  sameSign y' y = true -> sameSign y' v = sameSign y v.
Proof.
  unfold sameSign at 1. intros [[Hy' Hy]%andb_true_iff | [Hy' Hy]%andb_true_iff]%orb_true_iff.
  - by rewrite !sameSign_negative.
  - by rewrite !sameSign_nonnegative.
Qed.

Lemma sameSign_NaN (v : num) : sameSign NaN v = false.
Proof. reflexivity. Qed.

Lemma bar_value_missing (bar : list num) (j : nat) :
  (length bar <= j)%nat -> bar_value bar j = NaN.
Proof. intros Hlen. unfold bar_value. by rewrite lookup_ge_None_2. Qed.

Lemma sameSign_NaN_r (y : num) : sameSign y NaN = false.
Proof.
  unfold sameSign. change (nlt NaN (ofZ 0)) with false.
  change (nge NaN (ofZ 0)) with false. by rewrite !andb_false_r.
Qed.

Section MoreStacking.
Context {Raw Scale : Type}.
Implicit Types (this : VictoryBar Raw Scale).

(** The offset above one more dataset: the dataset's value at the point
    index is added when it passes [sameSign]. *)
Lemma getYOffset_step this (data : DataPoint) (index barIndex : nat) (dataset : Dataset) :
  datasets this !! S index = Some dataset ->
  getYOffset this data (S (S index)) barIndex =
    let barValue := bar_value (map datum_y (ds_data dataset)) barIndex in
    if sameSign (datum_y data) barValue
    then nadd (getYOffset this data (S index) barIndex) barValue
    else getYOffset this data (S index) barIndex.
Proof.
  intros Hds. unfold getYOffset. cbn [Nat.eqb].
  rewrite (take_S_r _ _ _ Hds), map_app, fold_left_app. reflexivity.
Qed.

Lemma getYOffset_same_class this (above below : DataPoint) (index barIndex : nat) :
  sameSign (datum_y above) (datum_y below) = true ->
  getYOffset this above (S index) barIndex = getYOffset this below (S index) barIndex.
Proof.
  intros Hsame. rewrite !getYOffset_later. f_equal.
  apply filter_ext_bool. intros v. by apply sameSign_class.
Qed.

(** X9: from the second dataset on, a stacked bar starts where the bar
    below it (same point index, previous dataset) ends, provided the two
    values pass [sameSign]. *)
Theorem stacked_contiguous this (above below : DataPoint) (index barIndex : nat)
    (dataset : Dataset) :
  p_stacked (props this) = true ->
  datasets this !! S index = Some dataset ->
  ds_data dataset !! barIndex = Some below ->
  sameSign (datum_y above) (datum_y below) = true ->
  bar_y0 this above (S (S index)) barIndex = bar_y1 this below (S index) barIndex.
Proof.
  intros Hst Hds Hbelow Hsame. unfold bar_y0, bar_y1. rewrite Hst.
  rewrite (getYOffset_step _ _ _ _ _ Hds). cbn zeta.
  assert (bar_value (map datum_y (ds_data dataset)) barIndex = datum_y below) as ->.
  { unfold bar_value. change (map datum_y (ds_data dataset)) with (datum_y <$> ds_data dataset).
    by rewrite list_lookup_fmap, Hbelow. }
  rewrite Hsame. f_equal. by apply getYOffset_same_class.
Qed.

(** X10: the offset of a bar of a later dataset is never on the other
    side of zero: it is zero or more for a value that is zero or more, and
    zero or less for a negative value. *)
Theorem offset_keeps_side this (data : DataPoint) (index barIndex : nat) :
  (nge (datum_y data) (ofZ 0) = true ->
   nle (ofZ 0) (getYOffset this data (S index) barIndex)) /\
  (nlt (datum_y data) (ofZ 0) = true ->
   nle (getYOffset this data (S index) barIndex) (ofZ 0)).
Proof.
  split; intros Hy; rewrite getYOffset_later; unfold sum_in_order, nle.
  - rewrite (filter_ext_bool (sameSign (datum_y data)) (fun v => nge v (ofZ 0)));
      [by apply sum_nonnegative|].
    intros v. by apply sameSign_nonnegative.
  - rewrite (filter_ext_bool (sameSign (datum_y data)) (fun v => nlt v (ofZ 0)));
      [by apply sum_nonpositive|].
    intros v. by apply sameSign_negative.
Qed.

(** X11: the offset of a bar of a later dataset is [0] when its own value
    is [NaN], and when none of the datasets before it has a point at its
    point index. *)
Theorem offset_nothing_to_add this (data : DataPoint) (index barIndex : nat) :
  (datum_y data = NaN -> getYOffset this data (S index) barIndex = ofZ 0) /\
  (Forall (fun dataset => (length (ds_data dataset) <= barIndex)%nat)
          (take (S index) (datasets this)) ->
   getYOffset this data (S index) barIndex = ofZ 0).
Proof.
  split.
  - intros Hy. rewrite getYOffset_later, Hy. unfold sum_in_order.
    rewrite filter_none; [done|]. apply Forall_forall. intros v _.
    by rewrite sameSign_NaN.
  - intros Hshort. rewrite getYOffset_later. unfold sum_in_order, prior_values.
    rewrite filter_none; [done|]. apply Forall_forall. intros v Hv.
    apply list_elem_of_In, in_map_iff in Hv as (dataset & <- & Hin%list_elem_of_In).
    rewrite Forall_forall in Hshort.
    rewrite bar_value_missing, sameSign_NaN_r; [done|].
    rewrite length_map. by apply Hshort.
Qed.
End MoreStacking.

(** ** More on label indices *)

Lemma js_index_ofNat {A : Type} (arr : list A) (k : nat) :
  js_index arr (ofNat k) = arr !! k.
Proof.
  unfold ofNat, ofZ, js_index.
  assert (Qfloor (this (Qc_of_Z (Z.of_nat k))) = Z.of_nat k) as -> by apply Qfloor_Z.
  rewrite bool_decide_eq_true_2 by done.
  rewrite (proj2 (Z.leb_le 0 (Z.of_nat k))) by lia.
  by rewrite Nat2Z.id.
Qed.

Lemma js_index_negative {A : Type} (arr : list A) : js_index arr (ofZ (-1)) = None.
Proof. reflexivity. Qed.

Lemma strict_eq_eq (n x : num) : strict_eq n x = true -> n = x.
Proof.
  destruct (decide (x = NaN)) as [->|Hx]; [by destruct n|].
  by apply strict_eq_true.
Qed.

Lemma find_from_none {A : Type} (p : A -> bool) (l : list A) (i : nat) :
  Forall (fun a => p a = false) l -> find_from p l i = None.
Proof.
  intros Hall. revert i. induction Hall as [|a l Ha _ IH]; intros i; [done|].
  cbn. by rewrite Ha.
Qed.

Lemma ofNat_inj (n m : nat) : ofNat n = ofNat m -> n = m.
Proof. unfold ofNat. intros H%ofZ_inj. lia. Qed.

Section MoreLabels.
Context {Raw Scale : Type}.
Implicit Types (this : VictoryBar Raw Scale).

(** The label index of a point whose x value is a number of the datasets
    is where the sorted unique x values hold that value. *)
Lemma getLabelIndex_found this (data : DataPoint) :
  datum_category data = None -> on_x (stringMap this) = None ->
  datum_x data <> NaN -> datum_x data ∈ all_x this ->
  exists k,
    sorted_unique_x this !! k = Some (datum_x data) /\
    getLabelIndex this data = ofNat k.
Proof.
  intros Hcat Hmap Hx Hin. apply elem_of_sorted_unique_x in Hin.
  apply list_elem_of_lookup in Hin as [k Hk]. exists k.
  split; [done|]. by apply getLabelIndex_position.
Qed.

(** X12: without categories and string map, two points of the datasets
    (x values that are numbers) have the same label index exactly when
    they have the same x value. *)
Theorem label_index_injective this (data1 data2 : DataPoint) :
  on_x (stringMap this) = None ->
  datum_category data1 = None -> datum_category data2 = None ->
  datum_x data1 <> NaN -> datum_x data2 <> NaN ->
  datum_x data1 ∈ all_x this -> datum_x data2 ∈ all_x this ->
  (getLabelIndex this data1 = getLabelIndex this data2 <-> datum_x data1 = datum_x data2).
Proof.
  intros Hmap Hcat1 Hcat2 Hx1 Hx2 Hin1 Hin2.
  destruct (getLabelIndex_found this data1) as (k1 & Hk1 & ->); try done.
  destruct (getLabelIndex_found this data2) as (k2 & Hk2 & ->); try done.
  split.
  - intros ->%ofNat_inj. congruence.
  - intros Heq. f_equal. rewrite Heq in Hk1.
    exact (NoDup_lookup _ _ _ _ (sorted_unique_x_NoDup this) Hk1 Hk2).
Qed.

(** X13: a labels list with at least as many entries as there are unique
    x values has an entry at the label index of every point of the
    datasets (no category, no string map, x a number); the unique x values
    are never more than the points. *)
Theorem labels_cover_unique_x this (data : DataPoint) (labels : list jsval) :
  on_x (stringMap this) = None ->
  datum_category data = None ->
  datum_x data <> NaN -> datum_x data ∈ all_x this ->
  (length (sorted_unique_x this) <= length labels)%nat ->
  is_Some (js_index labels (getLabelIndex this data)) /\
  (length (sorted_unique_x this) <= length (all_x this))%nat.
Proof.
  intros Hmap Hcat Hx Hin Hlen.
  destruct (getLabelIndex_found this data) as (k & Hk & ->); try done.
  split.
  - rewrite js_index_ofNat. apply lookup_lt_is_Some.
    apply lookup_lt_Some in Hk. lia.
  - unfold sorted_unique_x, lodash_sortBy.
    rewrite merge_sort_Permutation.
    generalize (all_x this). intros l. induction l as [|v l IH]; [done|].
    cbn [lodash_uniq length]. pose proof (length_filter (fun w => w <> v) (lodash_uniq l)).
    lia.
Qed.

(** X14: a point whose x value is [NaN], or is no x value of the
    datasets, has the label index [-1], and its label text is the first
    entry of the labels list. *)
Theorem label_index_not_found this (data : DataPoint) (labels : list jsval) :
  on_x (stringMap this) = None ->
  datum_category data = None ->
  datum_x data = NaN \/ datum_x data ∉ all_x this ->
  getLabelIndex this data = ofZ (-1) /\
  js_or (js_get labels (getLabelIndex this data)) (js_get labels (ofZ 0)) =
    js_get labels (ofZ 0).
Proof.
  intros Hmap Hcat Habsent.
  assert (getLabelIndex this data = ofZ (-1)) as ->.
  { unfold getLabelIndex. rewrite Hcat, Hmap.
    fold (all_x this). fold (sorted_unique_x this). unfold lodash_findIndex.
    rewrite find_from_none; [done|].
    apply Forall_forall. intros n Hn. apply not_true_iff_false.
    intros Heq. destruct Habsent as [Hnan|Hout].
    - rewrite Hnan in Heq. by destruct n.
    - apply strict_eq_eq in Heq as ->. by apply Hout, elem_of_sorted_unique_x. }
  split; [done|]. unfold js_get at 1. by rewrite js_index_negative.
Qed.
End MoreLabels.

(** ** More on rendering *)

Lemma mapM_imap_lookup_l {A B : Type} (f : nat -> A -> option B) (l : list A)
    (k : list B) (i : nat) (x : A) :
  mapM id (imap f l) = Some k -> l !! i = Some x ->
  exists y, k !! i = Some y /\ f i x = Some y.
Proof.
  intros HmapM Hx. apply mapM_Some_1 in HmapM.
  assert (imap f l !! i = Some (f i x)) as Hfx by (by rewrite list_lookup_imap, Hx).
  destruct (Forall2_lookup_l _ _ _ _ _ HmapM Hfx) as (y & Hy & Hfy).
  by exists y.
Qed.

Section MoreRendering.
Context {Raw Scale : Type} `{!Collaborators Raw Scale}.
Implicit Types (this : VictoryBar Raw Scale).

Lemma renderBar_fields this (index barIndex : nat) (plot : bool) (data : DataPoint)
    (bar : RenderedBar) :
  renderBar this index plot barIndex data = Some bar ->
  bar_series bar = index /\ bar_index bar = barIndex /\ bar_data bar = data /\
  getBarPosition this data index barIndex = Some (bar_position bar).
Proof.
  unfold renderBar.
  destruct (getBarPosition this data index barIndex) as [position|]; [|done].
  cbn [mbind option_bind]. by destruct (_ && _); intros [= <-].
Qed.

(** X15: when [renderData] returns, it returns one group per dataset and
    in each group one bar per data point, in order: the bar at [(i, j)]
    belongs to the point [j] of the dataset [i] and has the position
    [getBarPosition] gives that point. *)
Theorem one_bar_per_point this (groups : list (list RenderedBar)) :
  renderData this = Some groups ->
  length groups = length (datasets this) /\
  forall i dataset,
    datasets this !! i = Some dataset ->
    exists group,
      groups !! i = Some group /\
      length group = length (ds_data dataset) /\
      forall j data,
        ds_data dataset !! j = Some data ->
        exists bar,
          group !! j = Some bar /\
          bar_series bar = i /\ bar_index bar = j /\ bar_data bar = data /\
          getBarPosition this data i j = Some (bar_position bar).
Proof.
  intros Hrender. split.
  { unfold renderData in Hrender. by apply mapM_imap_length in Hrender. }
  intros i dataset Hds. unfold renderData in Hrender.
  destruct (mapM_imap_lookup_l _ _ _ _ _ Hrender Hds) as (group & Hgroup & Hbars).
  exists group. split; [done|]. rewrite renderBars_unfold in Hbars.
  split; [by apply mapM_imap_length in Hbars|].
  intros j data Hdata.
  destruct (mapM_imap_lookup_l _ _ _ _ _ Hbars Hdata) as (bar & Hbar & Hrb).
  exists bar. split; [done|]. by apply renderBar_fields in Hrb.
Qed.

(** X16: all labels of one render pass show the same label component, the
    one at the index of the label-carrying dataset (or the first one when
    that entry is falsy), not one per group; without a labels list their
    text is the empty string. *)
Theorem label_component_shared this (groups : list (list RenderedBar))
    (i j : nat) (bar : RenderedBar) (label : BarLabel) :
  renderData this = Some groups ->
  groups !! i ≫= (.!! j) = Some bar ->
  bar_label bar = Some label ->
  labelComponent label =
    match p_labelComponents (props this) with
    | Some labelComponents =>
        js_or (js_get labelComponents (ofNat (label_carrier this)))
              (js_get labelComponents (ofZ 0))
    | None => JUndefined
    end /\
  (p_labels (props this) = None -> labelText label = JStr "").
Proof.
  intros Hrender Hlookup Hlabel.
  apply bind_Some in Hlookup as (group & Hgroup & Hbar).
  destruct (renderData_lookup _ _ _ _ _ _ Hrender Hgroup Hbar)
    as (dataset & data & Hds & Hdata & Hrb).
  apply renderBar_label in Hrb as [_ Hl]. rewrite Hl in Hlabel.
  rewrite plotGroupLabel_carrier in Hlabel by (by eapply lookup_lt_Some).
  case_bool_decide as Hcarrier; [|done]. cbn [andb] in Hlabel.
  destruct (labels_configured this); [|done].
  injection Hlabel as <-. cbn [labelComponent labelText]. rewrite <- Hcarrier.
  split; [done|]. by intros ->.
Qed.

(** X17: with neither labels nor label components configured, no bar is
    rendered with a label. *)
Theorem no_labels_configured this (groups : list (list RenderedBar))
    (i j : nat) (bar : RenderedBar) :
  labels_configured this = false ->
  renderData this = Some groups ->
  groups !! i ≫= (.!! j) = Some bar ->
  bar_label bar = None.
Proof.
  intros Hconf Hrender Hlookup.
  apply bind_Some in Hlookup as (group & Hgroup & Hbar).
  destruct (renderData_lookup _ _ _ _ _ _ Hrender Hgroup Hbar)
    as (dataset & data & Hds & Hdata & Hrb).
  apply renderBar_label in Hrb as [_ ->]. by rewrite Hconf, andb_false_r.
Qed.



End MoreRendering.

(** ** More on styles *)

Lemma lodash_omit_prop (object : jsobj) (keys : list string) (key : string) :
  js_prop (lodash_omit object keys) key =
    if bool_decide (key ∈ keys) then JUndefined else js_prop object key.
Proof.
  unfold js_prop, lodash_omit. rewrite map_lookup_filter.
  destruct (object !! key) as [v|]; cbn; [|by case_bool_decide].
  case_bool_decide as Hin.
  - by rewrite option_guard_False by (by intros Hn; apply Hn).
  - by rewrite option_guard_True.
Qed.

Lemma lodash_merge_defined (object source : jsobj) (key : string) :
  js_prop (lodash_merge object (Some source)) key =
    defined_or (js_prop source key) (js_prop object key).
Proof.
  rewrite lodash_merge_prop. cbn [mbind option_bind]. unfold js_prop.
  by destruct (source !! key) as [[]|].
Qed.

Lemma js_prop_empty (key : string) : js_prop ∅ key = JUndefined.
Proof. unfold js_prop. by rewrite lookup_empty. Qed.

Lemma defined_or_undefined (v : jsval) : defined_or v JUndefined = v.
Proof. by destruct v. Qed.

Section MoreStyles.
Context {Raw Scale : Type} `{!Collaborators Raw Scale}.
Implicit Types (this : VictoryBar Raw Scale) (p : Props Raw).

Lemma getStyles_part_prop (part : StyleProp -> option jsobj) p (key : string) :
  js_prop (lodash_merge (lodash_merge ∅ (part defaultStyles))
                        (part (default defaultStyles (p_style p)))) key =
    defined_or (user_style_value part p key)
               (js_prop (default ∅ (part defaultStyles)) key).
Proof.
  assert (js_prop (lodash_merge ∅ (part defaultStyles)) key =
          js_prop (default ∅ (part defaultStyles)) key) as Hdefault.
  { destruct (part defaultStyles) as [defaults|]; [|done].
    by rewrite lodash_merge_defined, js_prop_empty, defined_or_undefined. }
  rewrite lodash_merge_prop, Hdefault. unfold user_style_value.
  destruct (p_style p) as [style|]; cbn [default]; unfold id.
  - destruct (part style) as [object|]; cbn [mbind option_bind defined_or]; [|done].
    generalize (js_prop (default ∅ (part defaultStyles)) key). intros fallback.
    unfold js_prop. by destruct (object !! key) as [[]|].
  - destruct (part defaultStyles) as [defaults|]; cbn [mbind option_bind default defined_or];
      [|done].
    unfold js_prop. by destruct (defaults !! key) as [[]|].
Qed.

(** X20: in the resolved data and label styles every key has the value the
    [style] prop defines for it, and the default where the prop leaves it
    undefined; so the bar width and padding that [adjustX] reads are 8 and
    6 unless the [style] prop says otherwise. *)
Theorem data_and_label_style_precedence p (key : string) :
  js_prop (style_data (getStyles p)) key =
    defined_or (user_style_value sp_data p key)
               (js_prop (default ∅ (sp_data defaultStyles)) key) /\
  js_prop (style_labels (getStyles p)) key =
    defined_or (user_style_value sp_labels p key)
               (js_prop (default ∅ (sp_labels defaultStyles)) key) /\
  (user_style_value sp_data p "width" = JUndefined ->
   js_prop (style_data (getStyles p)) "width" = JNum (ofZ 8)) /\
  (user_style_value sp_data p "padding" = JUndefined ->
   js_prop (style_data (getStyles p)) "padding" = JNum (ofZ 6)).
Proof.
  assert (forall k, js_prop (style_data (getStyles p)) k =
    defined_or (user_style_value sp_data p k)
               (js_prop (default ∅ (sp_data defaultStyles)) k)) as Hdata.
  { intros k. apply (getStyles_part_prop sp_data). }
  split; [apply Hdata|]. split; [apply (getStyles_part_prop sp_labels)|].
  split; intros Hu; by rewrite Hdata, Hu.
Qed.

(** X21: in the style of a bar, a key has the value of the data point
    (unless it is one of the data keys [xName], [yName], [x], [y], [label],
    [category]), else the value of the dataset's attributes (unless it is
    [name]), else the value of the resolved data style. *)
Theorem bar_style_precedence this (dataset : Dataset) (data : DataPoint) (key : string) :
  js_prop (barStyle this dataset data) key =
    defined_or
      (if bool_decide (key ∈ data_keys) then JUndefined
       else js_prop (datum_rest data) key)
      (defined_or
         (if bool_decide (key = "name") then JUndefined
          else js_prop (ds_attrs dataset) key)
         (js_prop (style_data (style this)) key)).
Proof.
  unfold barStyle. cbn zeta.
  rewrite !lodash_merge_defined, !lodash_omit_prop, js_prop_empty, defined_or_undefined.
  by rewrite (bool_decide_ext (key ∈ ["name"]) (key = "name"))
    by apply list_elem_of_singleton.
Qed.

(** X22: in stacked charts the x coordinate of a bar depends on the point,
    the categories and the x scale only: not on the dataset index, the
    number of datasets, the bar width or the domain. *)
Theorem stacked_independent_of_layout this this' (data : DataPoint)
    (index index' barIndex barIndex' : nat) :
  p_stacked (props this) = true -> p_stacked (props this') = true ->
  p_categories (props this) = p_categories (props this') ->
  on_x (scale this) = on_x (scale this') ->
  independent <$> getBarPosition this data index barIndex =
  independent <$> getBarPosition this' data index' barIndex'.
Proof.
  intros Hst Hst' Hcats Hscale. unfold getBarPosition, adjustX.
  rewrite Hst, Hst', Hcats, Hscale. cbn [stacked].
  destruct (datum_category data) as [c|]; [|done].
  destruct (p_categories (props this')) as [cats|]; [|done]. cbn [mbind option_bind].
  by destruct (spread (js_index cats c)).
Qed.
End MoreStyles.

(** ** The further properties on the example charts *)

(** Witness of X1: [pair_chart] and [mirrored_pair_chart]. *)
Lemma pixelsToValue_orientation_witness :
  on_x (domain mirrored_pair_chart) ≡ₚ on_x (domain pair_chart) /\
  on_x (range mirrored_pair_chart) ≡ₚ on_x (range pair_chart) /\
  @pixelsToValue _ _ Sample.collaborators mirrored_pair_chart (JNum (ofZ 6)) AxisX =
    @pixelsToValue _ _ Sample.collaborators pair_chart (JNum (ofZ 6)) AxisX.
Proof.
  assert (on_x (domain pair_chart) = [ofZ 1; ofZ 2]) as Hdomain by compute_done.
  assert (on_x (range pair_chart) = [ofZ 50; ofZ 306]) as Hrange by compute_done.
  assert (on_x (domain mirrored_pair_chart) ≡ₚ on_x (domain pair_chart)) as Hd.
  { rewrite Hdomain. apply Permutation_swap. }
  assert (on_x (range mirrored_pair_chart) ≡ₚ on_x (range pair_chart)) as Hr.
  { rewrite Hrange. apply Permutation_swap. }
  split; [exact Hd|]. split; [exact Hr|].
  exact (@pixelsToValue_orientation _ _ Sample.collaborators pair_chart
           mirrored_pair_chart (JNum (ofZ 6)) AxisX Hd Hr).
Defined.


(** Witness of X3: [narrow_chart], whose x range is [[50, 50]]. *)
Lemma zero_range_not_finite_witness :
  is_finite (Math_min (on_x (range narrow_chart))) = true /\
  Math_max (on_x (range narrow_chart)) = Math_min (on_x (range narrow_chart)) /\
  is_finite (@pixelsToValue _ _ Sample.collaborators narrow_chart (JNum (ofZ 8)) AxisX) = false /\
  (datum_category (point 1 2) = None ->
   exists v,
     @adjustX _ _ Sample.collaborators narrow_chart (point 1 2) 0
       (Some {| stacked := false |}) = Some v /\
     is_finite v = false).
Proof.
  assert (Math_max (on_x (range narrow_chart)) = Math_min (on_x (range narrow_chart)))
    as Heq by compute_done.
  split; [reflexivity|]. split; [exact Heq|].
  exact (@zero_range_not_finite _ _ Sample.collaborators narrow_chart (point 1 2) 0
           (JNum (ofZ 8)) eq_refl Heq).
Defined.

Lemma narrow_chart_positions :
  @adjustX _ _ Sample.collaborators narrow_chart (point 1 2) 0
    (Some {| stacked := false |}) = Some NInf /\
  @adjustX _ _ Sample.collaborators narrow_chart (point 1 2) 1
    (Some {| stacked := false |}) = Some NaN.
Proof. split; reflexivity. Qed.


(** Witness of X5: the first and the last of the three datasets of
    [labelled_chart false]. *)
Lemma odd_group_symmetric_witness :
  @adjustX _ _ Sample.collaborators (labelled_chart false) (point 1 1) 0
    (Some {| stacked := false |}) =
    Some (nadd (ofZ 1)
            (nmul (ofZ (-1)) (@totalWidth _ _ Sample.collaborators (labelled_chart false)))) /\
  @adjustX _ _ Sample.collaborators (labelled_chart false) (point 1 1) 2
    (Some {| stacked := false |}) =
    Some (nadd (ofZ 1)
            (nmul (ofZ 1) (@totalWidth _ _ Sample.collaborators (labelled_chart false)))).
Proof.
  apply (@odd_group_symmetric _ _ Sample.collaborators (labelled_chart false) (point 1 1) 0);
    [reflexivity | reflexivity | cbn; lia].
Defined.

(** Witness of X6: the labelled (second) dataset of [labelled_chart false]. *)
Lemma labelled_bar_on_x_witness :
  is_finite (@totalWidth _ _ Sample.collaborators (labelled_chart false)) = true /\
  independent <$> @getBarPosition _ _ Sample.collaborators (labelled_chart false)
                    (point 1 3) (label_carrier (labelled_chart false)) 0 =
    Some (@scale_call _ _ Sample.collaborators (on_x (scale (labelled_chart false))) (ofZ 1)).
Proof.
  split; [reflexivity|].
  apply (@labelled_bar_on_x _ _ Sample.collaborators (labelled_chart false) (point 1 3) 0);
    [reflexivity | right; reflexivity].
Defined.

(** Witness of X7: the categories [[[0, 5], [5, 10]]]. *)
Lemma category_domain_bounds_witness :
  exists lo hi,
    @getDomainFromCategories _ _ Sample.collaborators band_props AxisX =
      Some [Fin lo; Fin hi] /\
    forall v, v ∈ @flatten_categories _ _ Sample.collaborators band_categories ->
              nle (Fin lo) v /\ nle v (Fin hi).
Proof.
  destruct (@category_domain_bounds _ _ Sample.collaborators band_props band_categories
              eq_refl eq_refl) as [_ Hbounds].
  apply Hbounds; [discriminate | reflexivity].
Defined.


Lemma banded_point_position :
  @adjustX _ _ Sample.collaborators band_chart banded_point 0
    (Some {| stacked := true |}) = Some (ofQ (15 # 2)).
Proof. compute_done. Qed.

(** Witness of X9: the second and third bar of [tall_stack_chart]. *)
Lemma stacked_contiguous_witness :
  bar_y0 tall_stack_chart (point 1 4) 2 0 = bar_y1 tall_stack_chart (point 1 2) 1 0.
Proof.
  apply (stacked_contiguous tall_stack_chart (point 1 4) (point 1 2) 0 0
           (series [point 1 2]));
    reflexivity.
Defined.

(** Witness of X10: the third bar of [tall_stack_chart] and the negative
    bar of [mixed_stack_chart]. *)
Lemma offset_keeps_side_witness :
  nle (ofZ 0) (getYOffset tall_stack_chart (point 1 4) 2 0) /\
  nle (getYOffset mixed_stack_chart (point 1 (-2)) 1 0) (ofZ 0).
Proof.
  split.
  - destruct (offset_keeps_side tall_stack_chart (point 1 4) 1 0) as [Hup _].
    apply Hup. reflexivity.
  - destruct (offset_keeps_side mixed_stack_chart (point 1 (-2)) 0 0) as [_ Hdown].
    apply Hdown. reflexivity.
Defined.

(** Witness of X11: [nan_point] above [tall_stack_chart], and the second
    point of the second dataset of [ragged_stack_chart]. *)
Lemma offset_nothing_to_add_witness :
  getYOffset tall_stack_chart nan_point 2 0 = ofZ 0 /\
  getYOffset ragged_stack_chart (point 2 5) 1 1 = ofZ 0.
Proof.
  split.
  - destruct (offset_nothing_to_add tall_stack_chart nan_point 1 0) as [Hnan _].
    apply Hnan. reflexivity.
  - destruct (offset_nothing_to_add ragged_stack_chart (point 2 5) 0 1) as [_ Hshort].
    apply Hshort. repeat constructor.
Defined.

(** Witness of X12: the points at [x = 3] and [x = 1] of [scattered_chart]. *)
Lemma label_index_injective_witness :
  getLabelIndex scattered_chart (point 3 1) = getLabelIndex scattered_chart (point 1 2) <->
  datum_x (point 3 1) = datum_x (point 1 2).
Proof.
  apply (label_index_injective scattered_chart (point 3 1) (point 1 2));
    [reflexivity | reflexivity | reflexivity | discriminate | discriminate
    | compute_done | compute_done].
Defined.

(** Witness of X13: the two labels of [labelled_chart false], whose
    datasets have the two x values 1 and 2. *)
Lemma labels_cover_unique_x_witness :
  is_Some (js_index [JStr "first"; JStr "second"]
             (getLabelIndex (labelled_chart false) (point 2 2))) /\
  (length (sorted_unique_x (labelled_chart false)) <=
   length (all_x (labelled_chart false)))%nat.
Proof.
  apply (labels_cover_unique_x (labelled_chart false) (point 2 2)
           [JStr "first"; JStr "second"]);
    [reflexivity | reflexivity | discriminate | compute_done | vm_compute; lia].
Defined.

(** Witness of X14: a point at [x = 9], which [scattered_chart] does not
    have. *)
Lemma label_index_not_found_witness :
  getLabelIndex scattered_chart (point 9 9) = ofZ (-1) /\
  js_or (js_get [JStr "first"; JStr "second"] (getLabelIndex scattered_chart (point 9 9)))
        (js_get [JStr "first"; JStr "second"] (ofZ 0)) =
    js_get [JStr "first"; JStr "second"] (ofZ 0).
Proof.
  apply (label_index_not_found scattered_chart (point 9 9) [JStr "first"; JStr "second"]);
    [reflexivity | reflexivity | right; compute_done].
Defined.

(** Witness of X15: the bars of [labelled_chart false]. *)
Lemma one_bar_per_point_witness :
  length (labelled_groups false) = length (datasets (labelled_chart false)) /\
  forall i dataset,
    datasets (labelled_chart false) !! i = Some dataset ->
    exists group,
      labelled_groups false !! i = Some group /\
      length group = length (ds_data dataset) /\
      forall j data,
        ds_data dataset !! j = Some data ->
        exists bar,
          group !! j = Some bar /\
          bar_series bar = i /\ bar_index bar = j /\ bar_data bar = data /\
          @getBarPosition _ _ Sample.collaborators (labelled_chart false) data i j =
            Some (bar_position bar).
Proof.
  apply (@one_bar_per_point _ _ Sample.collaborators (labelled_chart false)).
  vm_compute. reflexivity.
Defined.

(** Witness of X16: the first labelled bar of [component_chart]. *)
Lemma label_component_shared_witness :
  labelComponent {| labelText := JStr ""; labelComponent := JObject 1 |} =
    js_or (js_get [JObject 0; JObject 1] (ofNat (label_carrier component_chart)))
          (js_get [JObject 0; JObject 1] (ofZ 0)) /\
  (p_labels (props component_chart) = None ->
   labelText {| labelText := JStr ""; labelComponent := JObject 1 |} = JStr "").
Proof.
  apply (@label_component_shared _ _ Sample.collaborators component_chart
           component_groups 1%nat 0%nat component_bar
           {| labelText := JStr ""; labelComponent := JObject 1 |});
    [vm_compute; reflexivity | compute_done | reflexivity].
Defined.

(** Witness of X17: the first bar of [pair_chart]. *)
Lemma no_labels_configured_witness : bar_label pair_first_bar = None.
Proof.
  apply (@no_labels_configured _ _ Sample.collaborators pair_chart pair_groups
           0%nat 0%nat pair_first_bar);
    [reflexivity | vm_compute; reflexivity | compute_done].
Defined.



Lemma stray_category_throws :
  snd (@render _ _ Sample.collaborators (Sample.mount stray_category_props)) = None.
Proof. reflexivity. Qed.

(** Witness of X20: [short_parent_props], whose style has a parent part
    only. *)
Lemma data_and_label_style_precedence_witness :
  js_prop (style_data (getStyles short_parent_props)) "width" = JNum (ofZ 8) /\
  js_prop (style_data (getStyles short_parent_props)) "padding" = JNum (ofZ 6).
Proof.
  destruct (@data_and_label_style_precedence _ short_parent_props "width")
    as (_ & _ & Hwidth & Hpadding).
  split; [apply Hwidth|apply Hpadding]; reflexivity.
Defined.

Lemma painted_bar_style :
  js_prop (barStyle pair_chart painted_series painted_point) "fill" = JStr "red" /\
  js_prop (barStyle pair_chart painted_series painted_point) "opacity" = JNum (ofQ (1 # 2)) /\
  js_prop (barStyle pair_chart painted_series painted_point) "width" = JNum (ofZ 8) /\
  js_prop (barStyle pair_chart painted_series painted_point) "label" = JUndefined /\
  js_prop (barStyle pair_chart painted_series painted_point) "name" = JUndefined.
Proof. repeat split; compute_done. Qed.

(** Witness of X22: the positive bar of [mixed_stack_chart], as the first
    dataset there and as the third of [zero_stack_chart]. *)
Lemma stacked_independent_of_layout_witness :
  independent <$> @getBarPosition _ _ Sample.collaborators mixed_stack_chart
                    (point 1 3) 0 0 =
  independent <$> @getBarPosition _ _ Sample.collaborators zero_stack_chart
                    (point 1 3) 2 0.
Proof.
  apply (@stacked_independent_of_layout _ _ Sample.collaborators);
    reflexivity.
Defined.
